(** * Classroom AI analysis server: classification and broadcast core

    A shallow embedding of [classroom-ai-system/ai_server]:
    - [main.py]: [MemoryStore], [ConnectionManager], the inline
      [AttentionAnalyzer] / [FatigueAnalyzer] / [BehaviorAnalyzer],
      [calculate_engagement] and the [/analyze] request cycle;
    - [models/fatigue_net.py], [models/attemtion_net.py] and
      [analysis/benavior_engine.py]: the stand-alone analyzers.

    Conventions.
    - Python [float]s are modelled by the rational number they denote
      ([Q]); arithmetic is exact.  Comparisons against the literals
      0.2, 0.3, 0.15, 0.7 agree with the rational comparison for the
      values that reach them (ratios [k/n] with [n <= 30], and doubles
      compared with the double nearest to 0.2).
    - [dict] / [defaultdict] are [gmap]s keyed by [string];
      [deque(maxlen=n)] is a list, oldest element first.
    - A Python exception is the [None] of an [option] result.
    - [datetime.now()] is an explicit clock reading passed by the caller. *)

From Stdlib Require Import ZArith QArith Qminmax Qabs Lia Lqa Ascii.
From stdpp Require Import base strings list gmap.

Local Open Scope nat_scope.

(** ** Python containers *)

Module Py.

Section Containers.
Context {A : Type}.

(** [collections.deque(maxlen=n).append(x)]: the item is appended on the
    right and, when the deque then exceeds [maxlen], one item is
    discarded from the left. *)
Definition deque_append (maxlen : nat) (d : list A) (x : A) : list A :=
    let d' := d ++ [x] in
    if maxlen <? length d' then tail d' else d'.

(** [l[start:]] for a Python [int] [start]: a negative start counts from
    the end, and the bound is clamped into [0 .. len(l)]. *)
Definition slice_from (start : Z) (l : list A) : list A :=
    let n := Z.of_nat (length l) in
    let s := if (start <? 0)%Z then Z.max (start + n) 0 else Z.min start n in
    drop (Z.to_nat s) l.

(** [list.remove(x)]: removes the first occurrence, raises [ValueError]
    when there is none. *)
Fixpoint list_remove `{EqDecision A} (x : A) (l : list A) : option (list A) :=
    match l with
    | [] => None
    | y :: l' =>
        if decide (x = y) then Some l'
        else match list_remove x l' with
             | Some r => Some (y :: r)
             | None => None
             end
    end.

(** [x in l] *)
Definition contains `{EqDecision A} (x : A) (l : list A) : bool :=
    bool_decide (x ∈ l).

(** [if x in l: l.remove(x)] *)
Definition discard `{EqDecision A} (x : A) (l : list A) : list A :=
    default l (list_remove x l).
End Containers.

(** [d.get(k, dflt)] *)
Definition dict_get {V : Type} (d : gmap string V) (k : string) (dflt : V) : V :=
  match d !! k with
  | Some v => v
  | None => dflt
  end.

End Py.

(** ** [MemoryStore] (main.py, lines 50-84) *)

Module MemoryStore.

Section Store.
(** The stored payload (the JSON dictionary of a response). *)
Context {Data : Type}.

Definition time := Z.

(** [{"data": data, "timestamp": datetime.now()}] *)
Record latest := Latest { latest_data : Data; latest_timestamp : time }.

(** [{"timestamp": datetime.now().isoformat(), "data": data}] *)
Record entry := Entry { entry_timestamp : time; entry_data : Data }.

Record t := Store {
    classroom_data : gmap string latest;
    history_data : gmap string (list entry);
    max_history : nat
  }.

(** [__init__] *)
Definition init (max_history : nat) : t :=
    Store ∅ ∅ max_history.

Definition default_max_history : nat := 100.

Definition set_latest (s : t) (classroom_id : string) (now : time) (data : Data) : t :=
    Store (<[classroom_id := Latest data now]> (classroom_data s))
          (history_data s) (max_history s).

Definition get_latest (s : t) (classroom_id : string) : option latest :=
    classroom_data s !! classroom_id.

(** [self.history_data[classroom_id]] on the [defaultdict]: a missing key
    reads as a fresh empty deque. *)
Definition history_deque (s : t) (classroom_id : string) : list entry :=
    default [] (history_data s !! classroom_id).

Definition add_history (s : t) (classroom_id : string) (now : time) (data : Data) : t :=
    let e := Entry now data in
    Store (classroom_data s)
          (<[classroom_id :=
               Py.deque_append (max_history s) (history_deque s classroom_id) e]>
             (history_data s))
          (max_history s).

(** [list(self.history_data.get(classroom_id, []))[-limit:]] *)
Definition get_history (s : t) (classroom_id : string) (limit : Z) : list entry :=
    Py.slice_from (- limit) (default [] (history_data s !! classroom_id)).

(** Inserting a batch of entries, oldest first: each is a clock reading
    and a payload. *)
Definition add_all (s : t) (classroom_id : string) (es : list (time * Data)) : t :=
    foldl (fun s e => add_history s classroom_id (fst e) (snd e)) s es.

Definition entry_of (e : time * Data) : entry := Entry (fst e) (snd e).

(** Every deque respects its [maxlen]. *)
Definition bounded (s : t) : Prop :=
    ∀ cid d, history_data s !! cid = Some d → length d ≤ max_history s.
(** A history of calls made on the store. *)
Inductive op :=
| SetLatest (classroom_id : string) (now : time) (data : Data)
| AddHistory (classroom_id : string) (now : time) (data : Data).

Definition apply_op (s : t) (o : op) : t :=
    match o with
    | SetLatest classroom_id now data => set_latest s classroom_id now data
    | AddHistory classroom_id now data => add_history s classroom_id now data
    end.

Definition run (s : t) (ops : list op) : t := foldl apply_op s ops.
End Store.

Arguments t : clear implicits.
Arguments latest : clear implicits.
Arguments entry : clear implicits.
Arguments op : clear implicits.

End MemoryStore.

(** ** [ConnectionManager] (main.py, lines 90-115) *)

Module ConnectionManager.

Section Hub.
(** Transport handles, compared by object identity. *)
Context {WebSocket : Type} `{EqDecision WebSocket}.
Context {Message : Type}.

(** [active_connections: Dict[str, List[WebSocket]] = defaultdict(list)] *)
Abbreviation t := (gmap string (list WebSocket)).

(** [self.active_connections[classroom_id]]: reading a missing key of the
    [defaultdict] stores and returns a fresh empty list. *)
Definition touch (m : t) (classroom_id : string) : t * list WebSocket :=
    match m !! classroom_id with
    | Some l => (m, l)
    | None => (<[classroom_id := []]> m, [])
    end.

(** [connect], after the handshake was accepted. *)
Definition connect (m : t) (websocket : WebSocket) (classroom_id : string) : t :=
    let '(m, l) := touch m classroom_id in
    <[classroom_id := l ++ [websocket]]> m.

(** [disconnect]; [None] would be the [ValueError] of [list.remove]. *)
Definition disconnect (m : t) (websocket : WebSocket) (classroom_id : string) : option t :=
    let '(m, l) := touch m classroom_id in
    if Py.contains websocket l then
      match Py.list_remove websocket l with
      | Some l' => Some (<[classroom_id := l']> m)
      | None => None
      end
    else Some m.

(** The peer side of the sockets during one broadcast: [transport i ws]
    tells whether the [i]-th [send_text] of the loop, addressed to [ws],
    returns ([true]) or raises an [Exception] ([false]). *)
Definition transport := nat → WebSocket → bool.

(** The delivery loop with its [try]/[except]: the connections that got
    the message, and the list [disconnected]. *)
Fixpoint send_loop (tr : transport) (i : nat) (conns : list WebSocket)
    : list WebSocket * list WebSocket :=
    match conns with
    | [] => ([], [])
    | connection :: rest =>
        let '(delivered, disconnected) := send_loop tr (S i) rest in
        if tr i connection then (connection :: delivered, disconnected)
        else (delivered, connection :: disconnected)
    end.

(** [for conn in disconnected: self.disconnect(conn, classroom_id)] *)
Fixpoint disconnect_all (m : t) (disconnected : list WebSocket) (classroom_id : string)
    : option t :=
    match disconnected with
    | [] => Some m
    | conn :: rest =>
        match disconnect m conn classroom_id with
        | Some m' => disconnect_all m' rest classroom_id
        | None => None
        end
    end.

(** [broadcast]: the new connection table and the deliveries made (each
    carries [message]); [None] if an exception escaped. *)
Definition broadcast (m : t) (classroom_id : string) (message : Message) (tr : transport)
    : option (t * list (WebSocket * Message)) :=
    match m !! classroom_id with
    | None => Some (m, [])
    | Some conns =>
        let '(delivered, disconnected) := send_loop tr 0 conns in
        match disconnect_all m disconnected classroom_id with
        | Some m' => Some (m', (λ c, (c, message)) <$> delivered)
        | None => None
        end
    end.
End Hub.

End ConnectionManager.

(** ** Numbers *)

Module Num.
Local Open Scope Q_scope.

(** [x < y] on floats *)
Definition Qltb (x y : Q) : bool := negb (Qle_bool y x).

(** [np.clip(x, lo, hi)] = [minimum(maximum(x, lo), hi)] *)
Definition clip (x lo hi : Q) : Q := Qmin (Qmax x lo) hi.

Definition Qsum (l : list Q) : Q := foldl Qplus 0 l.

Definition of_nat (n : nat) : Q := inject_Z (Z.of_nat n).

(** [np.mean] of a one-dimensional array *)
Definition mean (l : list Q) : Q := Qsum l / of_nat (length l).

End Num.

(** ** [AttentionAnalyzer.predict]
    (main.py, lines 153-179; models/attemtion_net.py computes the same
    function, with the thresholds 15, 20 and -15 read from attributes) *)

Module AttentionAnalyzer.
Import Num.
Local Open Scope Q_scope.

(** The two-dimensional array [np] builds from a list of points needs
    rows of one length. *)
Definition rectangular (pts : list (list Q)) : bool :=
    match pts with
    | [] => true
    | p :: rest => forallb (λ q, Nat.eqb (length q) (length p)) rest
    end.

(** [np.mean(pts, axis=0)[0]]: the mean of the first coordinates; raises
    on ragged rows and on rows without a coordinate. *)
Definition mean_axis0_x (pts : list (list Q)) : option Q :=
    if rectangular pts then
      match mapM head pts with
      | Some xs => match xs with [] => None | _ => Some (mean xs) end
      | None => None
      end
    else None.

Definition predict (landmarks : list (list Q)) (head_pose : gmap string Q) : option Q :=
    let score := 100 in
    let yaw := Qabs (Py.dict_get head_pose "yaw" 0) in
    let pitch := Py.dict_get head_pose "pitch" 0 in
    let score :=
      if Qltb 15 yaw then score - Qmin ((yaw - 15) * 1.5) 40 else score in
    let score :=
      if Qltb 20 pitch then score - 25
      else if Qltb pitch (-15) then score - 15
      else score in
    let score :=
      if Nat.ltb 468 (length landmarks) then
        match mean_axis0_x (take 100 landmarks), landmarks !! 1%nat with
        | Some face_center_x, Some nose_tip =>
            match nose_tip !! 0%nat with
            | Some nose_x =>
                let deviation := Qabs (nose_x - face_center_x) in
                Some (if Qltb 0.08 deviation then score - 15 else score)
            | None => None
            end
        | _, _ => None
        end
      else Some score in
    match score with
    | Some score => Some (clip score 0 100)
    | None => None
    end.

(** [get_attention_level] of models/attemtion_net.py (lines 57-66); the
    four labels, from "highly focused" down to "badly distracted". *)
Inductive attention_level :=
| HighlyFocused       (* score >= 80 *)
| GenerallyAttentive  (* score >= 60 *)
| SlightlyDistracted  (* score >= 40 *)
| BadlyDistracted.    (* below 40 *)

Definition get_attention_level (score : Q) : attention_level :=
    if Qle_bool 80 score then HighlyFocused
    else if Qle_bool 60 score then GenerallyAttentive
    else if Qle_bool 40 score then SlightlyDistracted
    else BadlyDistracted.
End AttentionAnalyzer.

(** ** [FatigueAnalyzer.predict], the class defined in main.py
    (lines 181-205), which [/analyze] calls *)

Module FatigueAnalyzer.
Import Num.
Local Open Scope Q_scope.

(** [ear_history = defaultdict(lambda: deque(maxlen=30))] *)
Abbreviation t := (gmap string (list Q)).

Definition init : t := ∅.

Definition predict (st : t) (ear mar : Q) (student_id : string) : string * t :=
    let h := Py.deque_append 30 (default [] (st !! student_id)) ear in
    let st := <[student_id := h]> st in
    if Nat.ltb (length h) 10 then ("alert"%string, st)
    else
      let closed_frames := length (List.filter (λ e, Qltb e 0.2) h) in
      let closed_ratio := of_nat closed_frames / of_nat (length h) in
      let is_yawning := Qltb 0.5 mar in
      if Qltb 0.7 closed_ratio then ("drowsy"%string, st)
      else if Qltb 0.3 closed_ratio || is_yawning then ("tired"%string, st)
      else ("alert"%string, st).

(** A stream of [(student_id, ear, mar)] readings, classified in turn. *)
Definition feed (st : t) (rs : list (string * Q * Q)) : t :=
    foldl (λ st r, snd (predict st (snd (fst r)) (snd r) (fst (fst r)))) st rs.
End FatigueAnalyzer.

(** ** [FatigueAnalyzer.predict] of models/fatigue_net.py (lines 5-62) *)

Module FatigueNet.
Import Num.
Local Open Scope Q_scope.

Record t := Analyzer {
    history_size : nat;
    ear_history : gmap string (list Q);
    mar_history : gmap string (list Q)
  }.

(** [__init__(history_size=30)] *)
Definition init (history_size : nat) : t := Analyzer history_size ∅ ∅.

Definition default_history_size : nat := 30.

Definition ear_closed_threshold : Q := 0.2.
Definition mar_yawn_threshold : Q := 0.5.
Definition perclos_drowsy : Q := 0.3.
Definition perclos_tired : Q := 0.15.

Definition predict (st : t) (ear mar : Q) (student_id : string) : string * t :=
    let eh := Py.deque_append (history_size st)
                (default [] (ear_history st !! student_id)) ear in
    let mh := Py.deque_append 10 (default [] (mar_history st !! student_id)) mar in
    let st := Analyzer (history_size st)
                (<[student_id := eh]> (ear_history st))
                (<[student_id := mh]> (mar_history st)) in
    if Nat.ltb (length eh) 10 then ("alert"%string, st)
    else
      let closed_frames := length (List.filter (λ e, Qltb e ear_closed_threshold) eh) in
      let perclos := of_nat closed_frames / of_nat (length eh) in
      let is_yawning := Qltb mar_yawn_threshold (mean mh) in
      if Qltb perclos_drowsy perclos then ("drowsy"%string, st)
      else if Qltb perclos_tired perclos || is_yawning then ("tired"%string, st)
      else ("alert"%string, st).

(** A stream of [(student_id, ear, mar)] readings, classified in turn. *)
Definition feed (st : t) (rs : list (string * Q * Q)) : t :=
    foldl (λ st r, snd (predict st (snd (fst r)) (snd r) (fst (fst r)))) st rs.

End FatigueNet.

(** ** [BehaviorAnalyzer.analyze], the class defined in main.py
    (lines 207-228), which [/analyze] calls *)

Module BehaviorAnalyzer.
Import Num.
Local Open Scope Q_scope.

Definition analyze (head_pose : gmap string Q) (fatigue : string) : list string :=
    let tags : list string := [] in
    let yaw := Py.dict_get head_pose "yaw" 0 in
    let pitch := Py.dict_get head_pose "pitch" 0 in
    let tags :=
      if Qltb (Qabs yaw) 15 && Qltb (Qabs pitch) 20 then tags ++ ["looking_front"%string]
      else if Qltb 25 pitch then tags ++ ["looking_down"%string]
      else if Qltb 45 (Qabs yaw) then tags ++ ["turning_around"%string]
      else tags in
    let tags :=
      if String.eqb fatigue "drowsy" then tags ++ ["eyes_closed"%string] else tags in
    let tags :=
      if Qltb 35 pitch && Py.contains fatigue ["drowsy"%string; "tired"%string]
      then tags ++ ["head_dropping"%string] else tags in
    tags.
End BehaviorAnalyzer.

(** ** [BehaviorAnalyzer.analyze] of analysis/benavior_engine.py
    (lines 3-59) *)

Module BehaviorEngine.
Import Num.
Local Open Scope Q_scope.

(** [self.thresholds] *)
Definition yaw_front : Q := 15.
Definition yaw_side : Q := 45.
Definition pitch_down : Q := 25.
Definition pitch_sleep : Q := 35.

Definition analyze (head_pose : gmap string Q) (fatigue : string) : list string :=
    let tags : list string := [] in
    let yaw := Py.dict_get head_pose "yaw" 0 in
    let pitch := Py.dict_get head_pose "pitch" 0 in
    let tags :=
      if Qle_bool (Qabs yaw) yaw_front then
        if Qle_bool (Qabs pitch) 20 then tags ++ ["looking_front"%string]
        else if Qltb pitch_down pitch then tags ++ ["looking_down"%string]
        else tags
      else if Qltb yaw_side (Qabs yaw) then tags ++ ["turning_around"%string]
      else if Qltb 20 yaw then tags ++ ["looking_left"%string]
      else if Qltb yaw (-20) then tags ++ ["looking_right"%string]
      else tags in
    let tags :=
      if String.eqb fatigue "drowsy" then
        let tags := tags ++ ["eyes_closed"%string] in
        if Qltb pitch_sleep pitch then tags ++ ["head_dropping"%string] else tags
      else if String.eqb fatigue "tired" then tags ++ ["rubbing_eyes"%string]
      else tags in
    let tags :=
      if Qltb 40 (Qabs pitch) then tags ++ ["head_down"%string] else tags in
    tags.

(** [is_attentive] (lines 60-68) *)
Definition attentive_tags : gset string :=
    {[ "looking_front"%string; "looking_down"%string ]}.

Definition distracting_tags : gset string :=
    {[ "turning_around"%string; "head_dropping"%string; "eyes_closed"%string ]}.

Definition is_attentive (behaviors : list string) : bool :=
    let has_attentive :=
      Nat.ltb 0 (size (list_to_set behaviors ∩ attentive_tags : gset string)) in
    let has_distracting :=
      Nat.ltb 0 (size (list_to_set behaviors ∩ distracting_tags : gset string)) in
    has_attentive && negb has_distracting.
End BehaviorEngine.

(** ** Business logic of main.py (lines 236-313) *)

Module Logic.
Import Num.
Local Open Scope Q_scope.

Definition penalties : gmap string Q :=
    list_to_map [("alert"%string, 0); ("tired"%string, -10); ("drowsy"%string, -30)].

Definition bonuses : gmap string Q :=
    list_to_map [("looking_front"%string, 5); ("turning_around"%string, -5);
                 ("head_dropping"%string, -20)].

Definition calculate_engagement (attention : Q) (fatigue : string)
      (behaviors : list string) : Q :=
    let score := attention in
    let score := score + Py.dict_get penalties fatigue 0 in
    let score :=
      foldl (λ score behavior, score + Py.dict_get bonuses behavior 0) score behaviors in
    clip score 0 100.

(** The messages of [generate_suggestions], by what they advise. *)
Inductive suggestion :=
  | SuggestWakeUp          (* drowsy: remind softly or let the student stand *)
  | SuggestQuestion        (* tired: draw attention with a question *)
  | SuggestIntervene       (* attention < 40: walk up to the student *)
  | SuggestInteraction     (* attention < 60: add interaction *)
  | SuggestDiscipline.     (* turning around: keep classroom discipline *)

Definition generate_suggestions (attention : Q) (fatigue : string)
      (behaviors : list string) : list suggestion :=
    let suggestions : list suggestion := [] in
    let suggestions :=
      if String.eqb fatigue "drowsy" then suggestions ++ [SuggestWakeUp]
      else if String.eqb fatigue "tired" then suggestions ++ [SuggestQuestion]
      else suggestions in
    let suggestions :=
      if Qltb attention 40 then suggestions ++ [SuggestIntervene]
      else if Qltb attention 60 then suggestions ++ [SuggestInteraction]
      else suggestions in
    let suggestions :=
      if Py.contains "turning_around"%string behaviors
      then suggestions ++ [SuggestDiscipline] else suggestions in
    suggestions.

(** [class StudentStatus(BaseModel)] *)
Record StudentStatus := Status {
    status_student_id : string;
    attention_score : Q;
    fatigue_level : string;
    behavior_tags : list string;
    engagement_index : Q;
    suggestions : list suggestion
  }.

(** The constructor validates [Field(..., ge=0, le=100)] on both scores
    and raises [ValidationError] otherwise. *)
Definition in_range (x : Q) : bool := Qle_bool 0 x && Qle_bool x 100.

Definition new_status (student_id : string) (attention : Q) (fatigue : string)
      (behaviors : list string) (engagement : Q) (sugg : list suggestion)
    : option StudentStatus :=
    if in_range attention && in_range engagement
    then Some (Status student_id attention fatigue behaviors engagement sugg)
    else None.

(** The messages of [generate_teaching_recommendations]. *)
Inductive recommendation :=
  | RecWaiting             (* empty roster: waiting for data *)
  | RecAttentionLow        (* mean attention < 50 *)
  | RecAttentionDrifting   (* mean attention < 70 *)
  | RecBreak               (* more than 30% drowsy *)
  | RecVoice               (* more than 10% drowsy *)
  | RecDifficulty          (* more than half below engagement 40 *)
  | RecVisualise           (* a math course with mean attention < 65 *)
  | RecGood.               (* nothing to report *)

(** [s.lower()], restricted to what a test for an ASCII word can see. *)
Definition lower_ascii (c : ascii) : ascii :=
    let n := nat_of_ascii c in
    if (Nat.leb 65 n && Nat.leb n 90)%bool then ascii_of_nat (n + 32) else c.

Fixpoint lower (s : string) : string :=
    match s with
    | EmptyString => EmptyString
    | String c s' => String (lower_ascii c) (lower s')
    end.

(** [p in s] on strings *)
Fixpoint substring_of (p s : string) : bool :=
    String.prefix p s ||
    match s with
    | EmptyString => false
    | String _ s' => substring_of p s'
    end.

Definition count_where {A} (f : A → bool) (l : list A) : nat :=
    length (List.filter f l).

Definition generate_teaching_recommendations (statuses : list StudentStatus)
      (course_id : string) : list recommendation :=
    match statuses with
    | [] => [RecWaiting]
    | _ =>
      let avg_attention := mean (attention_score <$> statuses) in
      let drowsy_ratio :=
        of_nat (count_where (λ s, String.eqb (fatigue_level s) "drowsy") statuses)
        / of_nat (length statuses) in
      let low_engagement :=
        of_nat (count_where (λ s, Qltb (engagement_index s) 40) statuses)
        / of_nat (length statuses) in
      let recommendations : list recommendation := [] in
      let recommendations :=
        if Qltb avg_attention 50 then recommendations ++ [RecAttentionLow]
        else if Qltb avg_attention 70 then recommendations ++ [RecAttentionDrifting]
        else recommendations in
      let recommendations :=
        if Qltb 0.3 drowsy_ratio then recommendations ++ [RecBreak]
        else if Qltb 0.1 drowsy_ratio then recommendations ++ [RecVoice]
        else recommendations in
      let recommendations :=
        if Qltb 0.5 low_engagement then recommendations ++ [RecDifficulty]
        else recommendations in
      let recommendations :=
        if substring_of "math" (lower course_id) && Qltb avg_attention 65
        then recommendations ++ [RecVisualise] else recommendations in
      match recommendations with
      | [] => [RecGood]
      | _ => recommendations
      end
    end.

(** The messages of [detect_anomalies], with the count they print. *)
Inductive alert :=
  | AlertCritical (n : nat)
  | AlertSleeping (n : nat).

Definition detect_anomalies (statuses : list StudentStatus) : list alert :=
    let alerts : list alert := [] in
    let critical := List.filter (λ s, Qltb (engagement_index s) 20) statuses in
    let alerts :=
      if Nat.ltb 0 (length critical) then alerts ++ [AlertCritical (length critical)]
      else alerts in
    let sleeping :=
      List.filter (λ s, Py.contains "head_dropping"%string (behavior_tags s)) statuses in
    let alerts :=
      if Nat.ltb 2 (length sleeping) then alerts ++ [AlertSleeping (length sleeping)]
      else alerts in
    alerts.
End Logic.

(** ** The [/analyze] request cycle (main.py, lines 120-150 and 316-372) *)

Module Server.
Import Num Logic.
Local Open Scope Q_scope.

(** [class StudentData(BaseModel)] *)
Record StudentData := Student {
    student_id : string;
    face_bbox : list Z;
    landmarks : list (list Q);
    head_pose : gmap string Q;
    eye_aspect_ratio : Q;
    mouth_aspect_ratio : Q;
    local_timestamp : Q
  }.

(** [class AnalysisRequest(BaseModel)] *)
Record AnalysisRequest := Request {
    classroom_id : string;
    course_id : string;
    timestamp : string;
    student_count : Z;
    students : list StudentData
  }.

(** [class AnalysisResponse(BaseModel)] *)
Record AnalysisResponse := Response {
    response_classroom_id : string;
    analysis_timestamp : MemoryStore.time;
    overall_attention : Q;
    student_statuses : list StudentStatus;
    teaching_recommendations : list recommendation;
    alert_flags : list alert
  }.

(** What the handler hands back: the response, or the
    [HTTPException(status_code=500)] of its [except] clause. *)
Inductive outcome :=
  | Returned (response : AnalysisResponse)
  | HTTPException (status_code : Z).

(** The body of the [for student in request.students] loop.  The fatigue
    analyzer is a module-level object: what [predict] stored in it stays
    there when a later statement raises. *)
Definition analyze_student (fa : FatigueAnalyzer.t) (student : StudentData)
    : option StudentStatus * FatigueAnalyzer.t :=
    match AttentionAnalyzer.predict (landmarks student) (head_pose student) with
    | None => (None, fa)
    | Some attention =>
        let '(fatigue, fa) :=
          FatigueAnalyzer.predict fa (eye_aspect_ratio student)
            (mouth_aspect_ratio student) (student_id student) in
        let behaviors := BehaviorAnalyzer.analyze (head_pose student) fatigue in
        let engagement := calculate_engagement attention fatigue behaviors in
        let sugg := generate_suggestions attention fatigue behaviors in
        (new_status (student_id student) attention fatigue behaviors engagement sugg, fa)
    end.

Fixpoint analyze_students (fa : FatigueAnalyzer.t) (students : list StudentData)
      (student_statuses : list StudentStatus)
    : option (list StudentStatus) * FatigueAnalyzer.t :=
    match students with
    | [] => (Some student_statuses, fa)
    | student :: rest =>
        match analyze_student fa student with
        | (Some status, fa) => analyze_students fa rest (student_statuses ++ [status])
        | (None, fa) => (None, fa)
        end
    end.

(** A task handed to [background_tasks.add_task]:
    [save_and_broadcast(classroom_id, response)]. *)
Definition task : Type := string * AnalysisResponse.

(** [analyze_classroom]: the outcome, the fatigue analyzer afterwards and
    the background tasks that were scheduled. *)
Definition analyze_classroom (fa : FatigueAnalyzer.t) (request : AnalysisRequest)
      (now : MemoryStore.time) : outcome * FatigueAnalyzer.t * list task :=
    match analyze_students fa (students request) [] with
    | (Some student_statuses, fa) =>
        let overall_attention :=
          match student_statuses with
          | [] => 0
          | _ => mean (attention_score <$> student_statuses)
          end in
        let response :=
          Response (classroom_id request) now overall_attention student_statuses
            (generate_teaching_recommendations student_statuses (course_id request))
            (detect_anomalies student_statuses) in
        (Returned response, fa, [(classroom_id request, response)])
    | (None, fa) => (HTTPException 500, fa, [])
    end.

(** What a batch feeds to the fatigue analyzer, student by student. *)
Definition readings (students : list StudentData) : list (string * Q * Q) :=
    (λ s, (student_id s, eye_aspect_ratio s, mouth_aspect_ratio s)) <$> students.

(** The fatigue levels a handler outcome reports, in roster order. *)
Definition fatigue_levels (out : outcome) : list string :=
    match out with
    | Returned response => fatigue_level <$> student_statuses response
    | HTTPException _ => []
    end.

(** What the loop body makes of one student. *)
Definition status_of (student : StudentData) (status : StudentStatus) : Prop :=
  status_student_id status = student_id student
  ∧ AttentionAnalyzer.predict (landmarks student) (head_pose student)
    = Some (attention_score status)
  ∧ behavior_tags status
    = BehaviorAnalyzer.analyze (head_pose student) (fatigue_level status)
  ∧ engagement_index status
    = calculate_engagement (attention_score status) (fatigue_level status)
        (behavior_tags status)
  ∧ suggestions status
    = generate_suggestions (attention_score status) (fatigue_level status)
        (behavior_tags status).

Section Cycle.
Context {WebSocket : Type} `{EqDecision WebSocket}.

    (** The module-level objects [store], [manager] and [fatigue_analyzer]. *)
Record state := State {
      store : MemoryStore.t AnalysisResponse;
      manager : gmap string (list WebSocket);
      fatigue_analyzer : FatigueAnalyzer.t
    }.

    (** The readings of [datetime.now()] during one cycle, and the peers'
        behaviour during its broadcast. *)
Record world := World {
      now_analysis : MemoryStore.time;
      now_latest : MemoryStore.time;
      now_history : MemoryStore.time;
      sockets : @ConnectionManager.transport WebSocket
    }.

Definition deliveries : Type := list (WebSocket * AnalysisResponse).

    (** [save_and_broadcast] *)
Definition save_and_broadcast (st : state) (w : world) (tk : task)
      : state * deliveries :=
      let '(classroom_id, result) := tk in
      let data_dict := result in
      let s := MemoryStore.set_latest (store st) classroom_id (now_latest w) data_dict in
      let s := MemoryStore.add_history s classroom_id (now_history w) data_dict in
      match ConnectionManager.broadcast (manager st) classroom_id result (sockets w) with
      | Some (m, sent) => (State s m (fatigue_analyzer st), sent)
      | None => (State s (manager st) (fatigue_analyzer st), [])
      end.

    (** One [POST /analyze]: the handler, then the background tasks it
        scheduled. *)
Definition post_analyze (st : state) (w : world) (request : AnalysisRequest)
      : outcome * state * deliveries :=
      let '(out, fa, tasks) :=
        analyze_classroom (fatigue_analyzer st) request (now_analysis w) in
      let st := State (store st) (manager st) fa in
      let '(st, sent) :=
        foldl (λ '(st, sent) tk,
                 let '(st, sent') := save_and_broadcast st w tk in (st, sent ++ sent'))
              (st, []) tasks in
      (out, st, sent).
End Cycle.

(** [GET /classroom/{classroom_id}/status]: the stored snapshot, or the
    [HTTPException(status_code=404)] of an unknown classroom. *)
Definition get_status {WebSocket : Type} (st : @state WebSocket) (classroom_id : string)
    : outcome :=
    match MemoryStore.get_latest (store st) classroom_id with
    | Some data => Returned (MemoryStore.latest_data data)
    | None => HTTPException 404
    end.

(** [GET /classroom/{classroom_id}/history]: the [count] field calls
    [store.get_history(classroom_id)] with its default limit, 20. *)
Record HistoryReply := Reply {
    reply_classroom_id : string;
    reply_count : nat;
    reply_data : list (MemoryStore.entry AnalysisResponse)
  }.

Definition default_limit : Z := 20.

Definition get_history {WebSocket : Type} (st : @state WebSocket) (classroom_id : string)
      (limit : Z) : HistoryReply :=
    Reply classroom_id
      (length (MemoryStore.get_history (store st) classroom_id default_limit))
      (MemoryStore.get_history (store st) classroom_id limit).

Arguments state : clear implicits.
Arguments world : clear implicits.
End Server.

(** ** The specification's vocabulary *)

Module Spec.
Import Num.
Local Open Scope Q_scope.

(** The [n] most recent items of a sequence, oldest first. *)
Definition lastn {A : Type} (n : nat) (l : list A) : list A :=
    drop (length l - n) l.

(** PERCLOS: the fraction of buffered eye-aspect-ratio values below the
    closed-eye threshold 0.2. *)
Definition perclos (window : list Q) : Q :=
    of_nat (Logic.count_where (λ e, Qltb e 0.2) window) / of_nat (length window).

(** The decision order of the fatigue classifier, for a drowsy and a
    tired PERCLOS threshold: [level] is the level it prescribes. *)
Definition classified (drowsy_above tired_above : Q) (window : list Q) (yawn : bool)
      (level : string) : Prop :=
    if decide (length window < 10)%nat then level = "alert"%string
    else
      (drowsy_above < perclos window → level = "drowsy"%string) ∧
      (¬ drowsy_above < perclos window →
         (tired_above < perclos window ∨ yawn = true) → level = "tired"%string) ∧
      (¬ drowsy_above < perclos window →
         ¬ (tired_above < perclos window ∨ yawn = true) → level = "alert"%string).

(** The samples a stream of [(student_id, ear, mar)] readings holds for
    one student. *)
Definition reading : Type := string * Q * Q.

Definition ears_of (sid : string) (rs : list reading) : list Q :=
    (λ r, snd (fst r)) <$> List.filter (λ r, String.eqb (fst (fst r)) sid) rs.

Definition mars_of (sid : string) (rs : list reading) : list Q :=
    snd <$> List.filter (λ r, String.eqb (fst (fst r)) sid) rs.

(** The tags of the direction category. *)
Definition direction_tags : list string :=
    ["looking_front"; "looking_down"; "turning_around"; "looking_left";
     "looking_right"]%string.

Definition is_direction (tag : string) : bool := Py.contains tag direction_tags.

(** An ordered rule table: the tag of the first rule whose condition
    holds, if any. *)
Fixpoint first_match (rules : list (bool * string)) : list string :=
    match rules with
    | [] => []
    | (cond, tag) :: rest => if cond then [tag] else first_match rest
    end.

(** The documented direction rules, in their order. *)
Definition direction_rules (yaw pitch : Q) : list (bool * string) :=
    [ (Qle_bool (Qabs yaw) 15 && Qle_bool (Qabs pitch) 20, "looking_front"%string);
      (Qle_bool (Qabs yaw) 15 && Qltb 25 pitch, "looking_down"%string);
      (Qltb 45 (Qabs yaw), "turning_around"%string);
      (Qltb 20 yaw, "looking_left"%string);
      (Qltb yaw (-20), "looking_right"%string) ].

(** The direction rules as main.py orders them. *)
Definition inline_direction_rules (yaw pitch : Q) : list (bool * string) :=
    [ (Qltb (Qabs yaw) 15 && Qltb (Qabs pitch) 20, "looking_front"%string);
      (Qltb 25 pitch, "looking_down"%string);
      (Qltb 45 (Qabs yaw), "turning_around"%string) ].

(** The fatigue and posture tags, added independently of the direction:
    drowsy adds [eyes_closed] and, with pitch > 35, [head_dropping];
    tired adds [rubbing_eyes]; |pitch| > 40 adds [head_down]. *)
Definition posture_tags (pitch : Q) (fatigue : string) : list string :=
    (if String.eqb fatigue "drowsy"
     then "eyes_closed"%string
          :: (if Qltb 35 pitch then ["head_dropping"%string] else [])
     else [])
    ++ (if String.eqb fatigue "tired" then ["rubbing_eyes"%string] else [])
    ++ (if Qltb 40 (Qabs pitch) then ["head_down"%string] else []).

(** The fatigue tags of main.py: drowsy adds [eyes_closed]; pitch > 35
    with a drowsy or tired student adds [head_dropping]. *)
Definition inline_posture_tags (pitch : Q) (fatigue : string) : list string :=
    (if String.eqb fatigue "drowsy" then ["eyes_closed"%string] else [])
    ++ (if Qltb 35 pitch && (String.eqb fatigue "drowsy" || String.eqb fatigue "tired")
        then ["head_dropping"%string] else []).

(** [fatigue_penalty] and [behavior_bonus] of the engagement index. *)
Inductive fatigue := Alert | Tired | Drowsy.

Definition fatigue_name (f : fatigue) : string :=
    match f with
    | Alert => "alert"
    | Tired => "tired"
    | Drowsy => "drowsy"
    end.

Definition fatigue_penalty (f : fatigue) : Q :=
    match f with
    | Alert => 0
    | Tired => -10
    | Drowsy => -30
    end.

Definition behavior_bonus (tag : string) : Q :=
    if String.eqb tag "looking_front" then 5
    else if String.eqb tag "turning_around" then -5
    else if String.eqb tag "head_dropping" then -20
    else 0.

(** [Σ behavior_bonus(tag)] *)
Fixpoint bonus_sum (tags : list string) : Q :=
    match tags with
    | [] => 0
    | tag :: rest => behavior_bonus tag + bonus_sum rest
    end.

(** The attention score as the specification words it: the penalties
    are subtracted from 100 and the result is clipped. *)
Definition yaw_penalty (yaw : Q) : Q :=
    if Qltb 15 (Qabs yaw) then Qmin ((Qabs yaw - 15) * 1.5) 40 else 0.

Definition pitch_penalty (pitch : Q) : Q :=
    if Qltb 20 pitch then 25 else if Qltb pitch (-15) then 15 else 0.

(** The x coordinate of a landmark point (0 for a point without one). *)
Definition point_x (p : list Q) : Q := default 0 (head p).

Definition nose_offset (landmarks : list (list Q)) : Q :=
    Qabs (point_x (default [] (landmarks !! 1%nat))
          - mean (point_x <$> take 100 landmarks)).

Definition mesh_penalty (landmarks : list (list Q)) : Q :=
    if Nat.ltb 468 (length landmarks) && Qltb 0.08 (nose_offset landmarks)
    then 15 else 0.

Definition attention_score (landmarks : list (list Q)) (yaw pitch : Q) : Q :=
    clip (100 - yaw_penalty yaw - pitch_penalty pitch - mesh_penalty landmarks) 0 100.

(** A landmark list the mesh check can be run on: either it is not a
    full mesh, or its first 100 points all carry the same, non-zero
    number of coordinates. *)
Definition usable_mesh (landmarks : list (list Q)) : Prop :=
    (length landmarks ≤ 468)%nat
    ∨ ∃ d, (0 < d)%nat ∧ Forall (λ p, length p = d) (take 100 landmarks).
End Spec.

(** ** A classroom used in the examples *)

Module Scenario.
Import Server.
Local Open Scope Q_scope.

(** 469 landmark points without coordinates: a full mesh the attention
    analyzer cannot read. *)
Definition broken_mesh : list (list Q) := replicate 469 [].

(** A student with closed eyes (ear 0.1), and one with a broken mesh. *)
Definition sleepy : StudentData := Student "s1" [] [] ∅ 0.1 0 0.
Definition unreadable : StudentData := Student "s2" [] broken_mesh ∅ 0.3 0 0.

(** The analyzer after eight closed-eye samples of ["s1"]. *)
Definition eight_closed : FatigueAnalyzer.t :=
    FatigueAnalyzer.feed FatigueAnalyzer.init (replicate 8 ("s1"%string, 0.1, 0)).

Definition failing_batch : AnalysisRequest :=
    Request "room_101" "math_1" "08:00" 2 [sleepy; unreadable].

Definition valid_batch : AnalysisRequest :=
    Request "room_101" "math_1" "08:01" 1 [sleepy].
End Scenario.

(** * Verification *)

(** ** Bounded deques and slices *)

Section DequeFacts.
Context {A : Type}.
Implicit Types (l d : list A) (n : nat).

Lemma lastn_length n l : length (Spec.lastn n l) = Nat.min n (length l).
Proof. unfold Spec.lastn. rewrite length_drop. lia. Qed.

Lemma lastn_all n l : length l ≤ n → Spec.lastn n l = l.
Proof.
    intros Hle. unfold Spec.lastn.
    replace (length l - n) with 0 by lia. reflexivity.
Qed.

Lemma deque_append_lastn n l x :
    Py.deque_append n (Spec.lastn n l) x = Spec.lastn n (l ++ [x]).
Proof.
    unfold Py.deque_append, Spec.lastn.
    rewrite !length_app, length_drop. cbn [length].
    destruct (Nat.ltb_spec n (length l - (length l - n) + 1)) as [Hfull | Hroom].
    - assert (Hn : n ≤ length l) by lia.
      replace (length l + 1 - n) with (S (length l - n)) by lia.
      rewrite <- drop_app_le by lia.
      change (tail ?t) with (drop 1 t).
      rewrite drop_drop. f_equal. lia.
    - replace (length l - n) with 0 by lia.
      replace (length l + 1 - n) with 0 by lia. reflexivity.
Qed.

Lemma deque_append_bounded n d x :
    length d ≤ n → length (Py.deque_append n d x) ≤ n.
Proof.
    intros Hd. rewrite <- (lastn_all n d Hd), deque_append_lastn, lastn_length. lia.
Qed.

Lemma foldl_deque_append n l xs :
    foldl (Py.deque_append n) (Spec.lastn n l) xs = Spec.lastn n (l ++ xs).
Proof.
    revert l. induction xs as [| x xs IH]; intros l; cbn [foldl].
    - by rewrite app_nil_r.
    - rewrite deque_append_lastn, IH, <- app_assoc. reflexivity.
Qed.

(** [l[-k:]] with [k > 0] is the last [k] items. *)
Lemma slice_from_neg (k : Z) l :
    (0 < k)%Z → Py.slice_from (- k) l = Spec.lastn (Z.to_nat k) l.
Proof.
    intros Hk. unfold Py.slice_from, Spec.lastn.
    destruct (Z.ltb_spec (- k) 0) as [_ | ?]; [| lia].
    f_equal. lia.
Qed.

(** [l[-0:]] is [l[0:]]: the whole list. *)
Lemma slice_from_zero l : Py.slice_from (- 0) l = l.
Proof. unfold Py.slice_from. cbn. by rewrite Z.min_l by lia. Qed.
End DequeFacts.

(** ** [MemoryStore]: the bounded history *)

Section MemoryStoreFacts.
Context {Data : Type}.
Implicit Types (s : MemoryStore.t Data) (cid : string).
Import MemoryStore.

Lemma init_bounded n : bounded (@init Data n).
Proof. intros cid d Hd. cbn in Hd. by rewrite lookup_empty in Hd. Qed.

Lemma set_latest_bounded s cid now data :
    bounded s → bounded (set_latest s cid now data).
Proof. intros Hs. exact Hs. Qed.

Lemma history_deque_bounded s cid :
    bounded s → length (history_deque s cid) ≤ max_history s.
Proof.
    intros Hs. unfold history_deque.
    destruct (history_data s !! cid) as [d |] eqn:Hd; cbn; [eauto | lia].
Qed.

Lemma add_history_bounded s cid now data :
    bounded s → bounded (add_history s cid now data).
Proof.
    intros Hs cid' d. cbn. rewrite lookup_insert.
    case_decide as Hc; intros Hd; [| by eauto].
    injection Hd as <-. apply deque_append_bounded, history_deque_bounded, Hs.
Qed.

Lemma add_all_max_history s cid es :
    max_history (add_all s cid es) = max_history s.
Proof.
    revert s. induction es as [| e es IH]; intros s; [done |].
    cbn. unfold add_all in IH. by rewrite IH.
Qed.

Lemma add_all_bounded s cid es : bounded s → bounded (add_all s cid es).
Proof.
    revert s. induction es as [| e es IH]; intros s Hs; [done |].
    apply IH, add_history_bounded, Hs.
Qed.

Lemma history_deque_add_history s cid now data :
    history_deque (add_history s cid now data) cid
    = Py.deque_append (max_history s) (history_deque s cid) (Entry now data).
Proof. unfold history_deque at 1. cbn. by rewrite lookup_insert_eq. Qed.

Lemma history_deque_add_all s cid es :
    history_deque (add_all s cid es) cid
    = foldl (Py.deque_append (max_history s)) (history_deque s cid) (entry_of <$> es).
Proof.
    revert s. induction es as [| e es IH]; intros s; [done |].
    cbn [add_all foldl fmap list_fmap]. unfold add_all in IH.
    rewrite IH, history_deque_add_history. reflexivity.
Qed.

(** The deque of a classroom holds the most recent [max_history] entries. *)
Lemma history_deque_ring s cid es :
    bounded s →
    history_deque (add_all s cid es) cid
    = Spec.lastn (max_history s) (history_deque s cid ++ (entry_of <$> es)).
Proof.
    intros Hs. rewrite history_deque_add_all.
    rewrite <- (lastn_all (max_history s) (history_deque s cid)) at 1
      by by apply history_deque_bounded.
    apply foldl_deque_append.
Qed.

Lemma get_history_positive s cid (limit : Z) :
    (0 < limit)%Z →
    get_history s cid limit = Spec.lastn (Z.to_nat limit) (history_deque s cid).
Proof. intros Hl. unfold get_history. by rewrite slice_from_neg. Qed.

(** C7. After [max_history + 5] entries were inserted for a classroom,
    [get_history] with limit [max_history + 5] returns exactly
    [max_history] entries, in insertion order: the inserted entries
    without the 5 oldest.  When the inserted entries are pairwise
    distinct, none of those 5 is among the result. *)
Theorem history_keeps_newest_max_history s cid (es : list (time * Data)) :
    bounded s →
    length es = max_history s + 5 →
    let got := get_history (add_all s cid es) cid (Z.of_nat (max_history s + 5)) in
    got = drop 5 (entry_of <$> es)
    ∧ length got = max_history s
    ∧ (NoDup (entry_of <$> es) →
       ∀ i e, i < 5 → (entry_of <$> es) !! i = Some e → e ∉ got).
Proof.
    intros Hs Hlen got.
    assert (Hgot : got = drop 5 (entry_of <$> es)).
    { subst got. rewrite get_history_positive by lia.
      rewrite history_deque_ring by done.
      pose proof (history_deque_bounded s cid Hs) as Hb.
      set (d := history_deque s cid) in *. set (es' := entry_of <$> es).
      assert (Hes' : length es' = max_history s + 5)
        by (subst es'; by rewrite length_fmap).
      assert (Hl : length (Spec.lastn (max_history s) (d ++ es')) ≤ max_history s)
        by (rewrite lastn_length; lia).
      rewrite lastn_all by lia.
      unfold Spec.lastn. rewrite length_app, Hes'.
      replace (length d + (max_history s + 5) - max_history s)
        with (length d + 5) by lia.
      rewrite drop_app_add. reflexivity. }
    split; [exact Hgot |]. split.
    - rewrite Hgot, length_drop, length_fmap. lia.
    - intros Hnd i e Hi Hie Hin. rewrite Hgot in Hin.
      apply list_elem_of_lookup in Hin as [j Hj].
      rewrite lookup_drop in Hj.
      pose proof (NoDup_lookup _ _ _ _ Hnd Hie Hj). lia.
Qed.

(** C8 (divergence). With limit 0 the slice [[-0:]] is the whole list:
    [get_history] returns every buffered entry, not the empty list. *)
Theorem get_history_limit_zero_returns_all s cid :
    get_history s cid 0 = history_deque s cid.
Proof. unfold get_history. apply slice_from_zero. Qed.
End MemoryStoreFacts.

(** A store of capacity 2 that receives 7 entries. *)
Lemma history_keeps_newest_max_history_witness :
  let es : list (MemoryStore.time * Z) :=
    [(1, 10); (2, 20); (3, 30); (4, 40); (5, 50); (6, 60); (7, 70)]%Z in
  let got :=
    MemoryStore.get_history (MemoryStore.add_all (MemoryStore.init 2) "room_101" es)
      "room_101" 7 in
  got = [MemoryStore.Entry 6%Z 60%Z; MemoryStore.Entry 7%Z 70%Z].
Proof.
  intros es got.
  destruct (history_keeps_newest_max_history (MemoryStore.init 2) "room_101" es)
    as (Hgot & _ & _).
  - apply init_bounded.
  - reflexivity.
  - exact Hgot.
Defined.

(** ** [ConnectionManager]: fault-isolated broadcast *)

Section ConnectionManagerFacts.
Context {WebSocket : Type} `{EqDecision WebSocket} {Message : Type}.
Implicit Types (m : gmap string (list WebSocket)) (cid : string).
Implicit Types (conns : list WebSocket) (ws : WebSocket).
Import ConnectionManager.

Lemma list_remove_elem ws conns :
  ws ∈ conns → is_Some (Py.list_remove ws conns).
Proof.
  induction conns as [| c conns IH]; intros Hin; [by apply elem_of_nil in Hin |].
  cbn. case_decide as Hc; [by eexists |].
  apply elem_of_cons in Hin as [-> | Hin]; [done |].
  destruct (IH Hin) as [r ->]. by eexists.
Qed.

Lemma discard_head ws conns : Py.discard ws (ws :: conns) = conns.
Proof. unfold Py.discard. cbn. by rewrite decide_True. Qed.

Lemma discard_cons_ne ws c conns :
  ws ≠ c → Py.discard ws (c :: conns) = c :: Py.discard ws conns.
Proof.
  intros Hne. unfold Py.discard. cbn. rewrite decide_False by done.
  by destruct (Py.list_remove ws conns).
Qed.

(** The membership test of [disconnect] makes its [remove] safe. *)
Lemma disconnect_present m ws cid conns :
  m !! cid = Some conns →
  disconnect m ws cid = Some (<[cid := Py.discard ws conns]> m).
Proof.
  intros Hm. unfold disconnect, touch, Py.discard, Py.contains. rewrite Hm.
  case_bool_decide as Hin.
  - destruct (list_remove_elem ws conns Hin) as [r ->]. reflexivity.
  - assert (Py.list_remove ws conns = None) as ->.
    { clear Hm. induction conns as [| c conns IH]; [done |]. cbn.
      rewrite not_elem_of_cons in Hin. destruct Hin as [Hne Hin].
      rewrite decide_False by done. by rewrite IH. }
    cbn. by rewrite insert_id.
Qed.

Lemma disconnect_all_present m cid conns bad :
  m !! cid = Some conns →
  disconnect_all m bad cid
  = Some (<[cid := foldl (λ l c, Py.discard c l) conns bad]> m).
Proof.
  revert m conns. induction bad as [| c bad IH]; intros m conns Hm; cbn.
  - by rewrite insert_id.
  - rewrite (disconnect_present _ _ _ _ Hm).
    rewrite (IH _ (Py.discard c conns)) by by rewrite lookup_insert_eq.
    by rewrite insert_insert_eq.
Qed.

Lemma send_loop_delivered tr i conns ws :
  ws ∈ (send_loop tr i conns).1
  ↔ ∃ j, conns !! j = Some ws ∧ tr (i + j) ws = true.
Proof.
  revert i. induction conns as [| c conns IH]; intros i; cbn.
  - split; [by intros ?%elem_of_nil | by intros (j & ? & _)].
  - specialize (IH (S i)). destruct (send_loop tr (S i) conns) as [ok bad].
    cbn in IH. destruct (tr i c) eqn:Hc; cbn.
    + rewrite elem_of_cons, IH. split.
      * intros [-> | (j & Hj & Ht)].
        -- exists 0. by rewrite Nat.add_0_r.
        -- exists (S j). by rewrite Nat.add_succ_r.
      * intros ([| j] & Hj & Ht); cbn in Hj.
        -- left. congruence.
        -- right. exists j. by rewrite Nat.add_succ_r in Ht.
    + rewrite IH. split.
      * intros (j & Hj & Ht). exists (S j). by rewrite Nat.add_succ_r.
      * intros ([| j] & Hj & Ht); cbn in Hj.
        -- injection Hj as ->. rewrite Nat.add_0_r in Ht. congruence.
        -- exists j. by rewrite Nat.add_succ_r in Ht.
Qed.

Lemma send_loop_disconnected_sub tr i conns ws :
  ws ∈ (send_loop tr i conns).2 → ws ∈ conns.
Proof.
  revert i. induction conns as [| c conns IH]; intros i; cbn; [done |].
  specialize (IH (S i)). destruct (send_loop tr (S i) conns) as [ok bad].
  cbn in IH. destruct (tr i c); cbn; rewrite !elem_of_cons; tauto.
Qed.

Lemma discard_all_cons_notin c conns bad :
  c ∉ bad →
  foldl (λ l x, Py.discard x l) (c :: conns) bad
  = c :: foldl (λ l x, Py.discard x l) conns bad.
Proof.
  revert conns. induction bad as [| b bad IH]; intros conns Hc; [done |].
  apply not_elem_of_cons in Hc as [Hne Hc]. cbn [foldl].
  rewrite discard_cons_ne by congruence. by apply IH.
Qed.

(** Removing the connections whose send failed leaves exactly those that
    were served. *)
Lemma send_loop_survivors tr i conns :
  NoDup conns →
  foldl (λ l x, Py.discard x l) conns (send_loop tr i conns).2
  = (send_loop tr i conns).1.
Proof.
  revert i. induction conns as [| c conns IH]; intros i Hnd; [done |].
  apply NoDup_cons in Hnd as [Hc Hnd]. cbn.
  specialize (IH (S i) Hnd).
  pose proof (send_loop_disconnected_sub tr (S i) conns c) as Hsub.
  destruct (send_loop tr (S i) conns) as [ok bad]. cbn in *.
  destruct (tr i c); cbn [fst snd foldl].
  - rewrite discard_all_cons_notin by tauto. by rewrite IH.
  - by rewrite discard_head.
Qed.

Lemma broadcast_never_raises m cid (msg : Message) tr :
  is_Some (broadcast m cid msg tr).
Proof.
  unfold broadcast. destruct (m !! cid) as [conns |] eqn:Hm; [| by eexists].
  destruct (send_loop tr 0 conns) as [ok bad].
  rewrite (disconnect_all_present _ _ _ _ Hm). by eexists.
Qed.

(** C6. [broadcast] never raises.  Without a registered connection it
    changes nothing and sends nothing; other classrooms are never touched.
    When the registered connections are distinct, a connection stays
    registered and receives the message exactly when its send succeeded,
    and it is unregistered, and only then, when its send failed. *)
Theorem broadcast_isolates_send_failures m cid (msg : Message) tr :
  ∃ m' sent,
    broadcast m cid msg tr = Some (m', sent)
    ∧ (default [] (m !! cid) = [] → m' = m ∧ sent = [])
    ∧ (∀ cid', cid' ≠ cid → m' !! cid' = m !! cid')
    ∧ (NoDup (default [] (m !! cid)) →
       ∀ i ws, default [] (m !! cid) !! i = Some ws →
         if tr i ws
         then (ws ∈ default [] (m' !! cid) ∧ (ws, msg) ∈ sent)
         else ((ws ∉ default [] (m' !! cid)) ∧ (ws, msg) ∉ sent)).
Proof.
  unfold broadcast. destruct (m !! cid) as [conns |] eqn:Hm; cbn.
  - pose proof (send_loop_delivered tr 0 conns) as Hok.
    pose proof (send_loop_survivors tr 0 conns) as Hsurv.
    destruct (send_loop tr 0 conns) as [ok bad] eqn:Hloop. cbn in *.
    rewrite (disconnect_all_present _ _ _ _ Hm).
    eexists _, _. split; [reflexivity |]. split; [| split].
    + intros ->. cbn in Hloop. injection Hloop as <- <-. cbn.
      by rewrite insert_id.
    + intros cid' Hne. by rewrite lookup_insert_ne.
    + intros Hnd i ws Hi. rewrite lookup_insert_eq. cbn.
      rewrite (Hsurv Hnd).
      destruct (tr i ws) eqn:Ht.
      * assert (ws ∈ ok) by (apply Hok; eauto).
        split; [done |]. apply list_elem_of_fmap. by exists ws.
      * assert (Hnot : ws ∉ ok).
        { intros (j & Hj & Htj)%Hok. cbn in Htj.
          rewrite (NoDup_lookup _ _ _ _ Hnd Hi Hj) in Ht. congruence. }
        split; [done |]. intros (c & [= <-] & Hc)%list_elem_of_fmap. done.
  - exists m, []. split; [done |]. split; [done |]. split; [done |].
    intros _ i ws Hi. by rewrite lookup_nil in Hi.
Qed.
End ConnectionManagerFacts.

(** Three subscribers of one classroom; the second one's socket is dead. *)
Lemma broadcast_isolates_send_failures_witness :
  ∃ m' sent,
    ConnectionManager.broadcast (Message := string)
      ({[ "room_101"%string := [1; 2; 3] ]} : gmap string (list nat)) "room_101" "snapshot"%string
      (λ _ ws, negb (Nat.eqb ws 2)) = Some (m', sent)
    ∧ (2 ∉ default [] (m' !! "room_101"%string))
    ∧ 3 ∈ default [] (m' !! "room_101"%string).
Proof.
  destruct (broadcast_isolates_send_failures
              ({[ "room_101"%string := [1; 2; 3] ]} : gmap string (list nat))
              "room_101" "snapshot"%string (λ _ ws, negb (Nat.eqb ws 2)))
    as (m' & sent & Hb & _ & _ & Hconns).
  exists m', sent. split; [exact Hb |].
  assert (Hnd : NoDup (default [] (({[ "room_101"%string := [1; 2; 3] ]}
                         : gmap string (list nat)) !! "room_101"%string))).
  { rewrite lookup_singleton_eq. cbn. by apply (bool_decide_unpack _). }
  split.
  - apply (Hconns Hnd 1 2). by rewrite lookup_singleton_eq.
  - apply (Hconns Hnd 2 3). by rewrite lookup_singleton_eq.
Defined.

(** ** Rational arithmetic of the scores *)

Section NumFacts.
Import Num.
Local Open Scope Q_scope.

Lemma Qltb_lt x y : Qltb x y = true ↔ x < y.
Proof.
  unfold Qltb. rewrite negb_true_iff, <- not_true_iff_false, Qle_bool_iff.
  split; [apply Qnot_le_lt | apply Qlt_not_le].
Qed.

Lemma Qltb_ge x y : Qltb x y = false ↔ y <= x.
Proof. unfold Qltb. by rewrite negb_false_iff, Qle_bool_iff. Qed.

Lemma Qltb_spec x y : reflect (x < y) (Qltb x y).
Proof.
  destruct (Qltb x y) eqn:Hb; constructor.
  - by apply Qltb_lt.
  - apply Qltb_ge in Hb. by apply Qle_not_lt.
Qed.

Lemma Qle_bool_spec x y : reflect (x <= y) (Qle_bool x y).
Proof.
  destruct (Qle_bool x y) eqn:Hb; constructor.
  - by apply Qle_bool_iff.
  - intros Hle%Qle_bool_iff. congruence.
Qed.

Lemma clip_cases x lo hi :
  lo <= hi →
  (x < lo ∧ clip x lo hi == lo)
  ∨ (lo <= x <= hi ∧ clip x lo hi == x)
  ∨ (hi < x ∧ clip x lo hi == hi).
Proof.
  intros Hlh. unfold clip.
  destruct (Q.max_spec x lo) as [[H1 E1] | [H1 E1]];
    destruct (Q.min_spec (Qmax x lo) hi) as [[H2 E2] | [H2 E2]];
    rewrite E2; rewrite ?E1 in *; lra.
Qed.

Lemma clip_range x lo hi : lo <= hi → lo <= clip x lo hi <= hi.
Proof. intros Hlh. destruct (clip_cases x lo hi Hlh) as [H | [H | H]]; lra. Qed.

Lemma clip_proper x y lo hi : lo <= hi → x == y → clip x lo hi == clip y lo hi.
Proof.
  intros Hlh Hxy.
  destruct (clip_cases x lo hi Hlh) as [H | [H | H]];
    destruct (clip_cases y lo hi Hlh) as [H' | [H' | H']]; lra.
Qed.
End NumFacts.

(** ** Engagement index *)

Section EngagementFacts.
Import Num Logic.
Local Open Scope Q_scope.

Lemma penalties_get (f : Spec.fatigue) :
  Py.dict_get penalties (Spec.fatigue_name f) 0 = Spec.fatigue_penalty f.
Proof. by destruct f. Qed.

Lemma bonuses_get (tag : string) :
  Py.dict_get bonuses tag 0 = Spec.behavior_bonus tag.
Proof.
  unfold Py.dict_get, bonuses, Spec.behavior_bonus. cbn [list_to_map foldr fst snd].
  destruct (String.eqb_spec tag "looking_front") as [-> | H1]; [done |].
  rewrite lookup_insert_ne by done.
  destruct (String.eqb_spec tag "turning_around") as [-> | H2]; [done |].
  rewrite lookup_insert_ne by done.
  destruct (String.eqb_spec tag "head_dropping") as [-> | H3]; [done |].
  rewrite lookup_insert_ne by done. by rewrite lookup_empty.
Qed.

Lemma bonus_loop (score : Q) (behaviors : list string) :
  foldl (λ score behavior, score + Py.dict_get bonuses behavior 0) score behaviors
  == score + Spec.bonus_sum behaviors.
Proof.
  revert score. induction behaviors as [| b bs IH]; intros score; cbn.
  - lra.
  - rewrite IH, bonuses_get. lra.
Qed.

(** C5. The engagement index is the clipped sum of the attention score,
    the fatigue penalty (alert 0, tired -10, drowsy -30) and the bonuses
    of the behavior tags (looking_front +5, turning_around -5,
    head_dropping -20, any other tag 0); it lies within [0, 100]. *)
Theorem engagement_is_clipped_sum (attention : Q) (f : Spec.fatigue)
    (behaviors : list string) :
  calculate_engagement attention (Spec.fatigue_name f) behaviors
  == clip (attention + Spec.fatigue_penalty f + Spec.bonus_sum behaviors) 0 100
  ∧ 0 <= calculate_engagement attention (Spec.fatigue_name f) behaviors <= 100.
Proof.
  split.
  - unfold calculate_engagement. apply clip_proper; [lra |].
    by rewrite bonus_loop, penalties_get.
  - apply clip_range. lra.
Qed.
End EngagementFacts.

(** ** Attention score *)

Section AttentionFacts.
Import Num AttentionAnalyzer.
Local Open Scope Q_scope.

Lemma rectangular_same_length (pts : list (list Q)) (d : nat) :
  Forall (λ p, length p = d) pts → rectangular pts = true.
Proof.
  intros Hall. destruct pts as [| p rest]; [done |]. cbn.
  apply Forall_cons in Hall as [Hp Hrest].
  apply forallb_forall. intros q Hq%list_elem_of_In.
  rewrite Forall_forall in Hrest. apply Nat.eqb_eq. rewrite Hp. by apply Hrest.
Qed.

Lemma mapM_head_points (pts : list (list Q)) (d : nat) :
  (0 < d)%nat → Forall (λ p, length p = d) pts →
  mapM head pts = Some (Spec.point_x <$> pts).
Proof.
  intros Hd Hall. apply mapM_Some. induction Hall as [| p pts Hp _ IH]; cbn.
  - constructor.
  - constructor; [| exact IH]. destruct p; cbn in *; [lia | done].
Qed.

Lemma mean_axis0_x_points (pts : list (list Q)) (d : nat) :
  (0 < d)%nat → pts ≠ [] → Forall (λ p, length p = d) pts →
  mean_axis0_x pts = Some (mean (Spec.point_x <$> pts)).
Proof.
  intros Hd Hne Hall. unfold mean_axis0_x.
  rewrite (rectangular_same_length _ _ Hall), (mapM_head_points _ _ Hd Hall).
  by destruct pts.
Qed.

Lemma penalties_agree (yaw pitch : Q) :
  (let score := 100 in
   let score :=
     if Qltb 15 (Qabs yaw) then score - Qmin ((Qabs yaw - 15) * 1.5) 40 else score in
   if Qltb 20 pitch then score - 25
   else if Qltb pitch (-15) then score - 15 else score)
  == 100 - Spec.yaw_penalty yaw - Spec.pitch_penalty pitch.
Proof.
  unfold Spec.yaw_penalty, Spec.pitch_penalty. cbn zeta.
  destruct (Qltb 15 (Qabs yaw)), (Qltb 20 pitch), (Qltb pitch (-15)); lra.
Qed.


Lemma predict_usable_mesh (landmarks : list (list Q)) (head_pose : gmap string Q) :
  Spec.usable_mesh landmarks →
  ∃ score,
    predict landmarks head_pose = Some score
    ∧ score == Spec.attention_score landmarks
                 (Py.dict_get head_pose "yaw" 0) (Py.dict_get head_pose "pitch" 0).
Proof.
  intros Hmesh. unfold predict, Spec.attention_score, Spec.mesh_penalty.
  set (yaw := Py.dict_get head_pose "yaw" 0).
  set (pitch := Py.dict_get head_pose "pitch" 0).
  pose proof (penalties_agree yaw pitch) as Hpen. cbn zeta in Hpen.
  set (base := if Qltb 20 pitch then _ else _) in *.
  destruct (Nat.ltb_spec 468 (length landmarks)) as [Hfull | Hsmall]; cbn [andb].
  - destruct Hmesh as [Hle | (d & Hd & Hall)]; [lia |].
    assert (Hne : take 100 landmarks ≠ []).
    { intros Hnil%(f_equal length). rewrite length_take in Hnil.
      cbn [length] in Hnil. lia. }
    rewrite (mean_axis0_x_points _ d Hd Hne Hall).
    destruct (landmarks !! 1%nat) as [nose_tip |] eqn:Hnose;
      [| apply lookup_ge_None in Hnose; lia].
    assert (Hlen : length nose_tip = d).
    { rewrite Forall_forall in Hall. apply Hall.
      apply list_elem_of_lookup. exists 1%nat.
      rewrite lookup_take_lt by lia. exact Hnose. }
    destruct nose_tip as [| nose_x coords]; [cbn in Hlen; lia |].
    cbn [lookup list_lookup]. unfold Spec.nose_offset. rewrite Hnose. cbn [default].
    change (Spec.point_x (nose_x :: coords)) with nose_x.
    eexists. split; [reflexivity |].
    apply clip_proper; [lra |].
    destruct (Qltb 0.08 _); lra.
  - eexists. split; [reflexivity |].
    apply clip_proper; [lra |]. lra.
Qed.

End AttentionFacts.


(** ** Fatigue classification *)

Section FatigueFacts.
Import Num.
Local Open Scope Q_scope.

(** The decision chain both analyzers end with. *)
Lemma decision_classified (d t : Q) (w : list Q) (yawn : bool) :
  Spec.classified d t w yawn
    (if Nat.ltb (length w) 10 then "alert"
     else if Qltb d (Spec.perclos w) then "drowsy"
     else if Qltb t (Spec.perclos w) || yawn then "tired"
     else "alert")%string.
Proof.
  unfold Spec.classified.
  destruct (Nat.ltb_spec (length w) 10) as [Hshort | Hlong].
  - by rewrite decide_True.
  - rewrite decide_False by lia.
    destruct (Qltb_spec d (Spec.perclos w)) as [Hd | Hd].
    + by repeat split.
    + destruct (Qltb_spec t (Spec.perclos w)) as [Ht | Ht]; cbn [orb].
      * repeat split; try done. intros _ []. by left.
      * destruct yawn.
        -- repeat split; try done. intros _ []. by right.
        -- repeat split; try done. by intros _ [? | ?].
Qed.

Lemma ears_of_snoc sid rs (r : Spec.reading) :
  Spec.ears_of sid (rs ++ [r])
  = Spec.ears_of sid rs ++ (if String.eqb r.1.1 sid then [r.1.2] else []).
Proof.
  unfold Spec.ears_of. rewrite List.filter_app, fmap_app. cbn.
  by destruct (String.eqb r.1.1 sid).
Qed.

Lemma mars_of_snoc sid rs (r : Spec.reading) :
  Spec.mars_of sid (rs ++ [r])
  = Spec.mars_of sid rs ++ (if String.eqb r.1.1 sid then [r.2] else []).
Proof.
  unfold Spec.mars_of. rewrite List.filter_app, fmap_app. cbn.
  by destruct (String.eqb r.1.1 sid).
Qed.

(** *** models/fatigue_net.py *)

Lemma net_predict_level st ear mar sid :
  let eh := Py.deque_append (FatigueNet.history_size st)
              (default [] (FatigueNet.ear_history st !! sid)) ear in
  let mh := Py.deque_append 10 (default [] (FatigueNet.mar_history st !! sid)) mar in
  (FatigueNet.predict st ear mar sid).1
  = (if Nat.ltb (length eh) 10 then "alert"
     else if Qltb 0.3 (Spec.perclos eh) then "drowsy"
     else if Qltb 0.15 (Spec.perclos eh) || Qltb 0.5 (mean mh) then "tired"
     else "alert")%string.
Proof.
  intros eh mh. unfold FatigueNet.predict. fold eh mh.
  unfold FatigueNet.perclos_drowsy, FatigueNet.perclos_tired,
    FatigueNet.mar_yawn_threshold, FatigueNet.ear_closed_threshold,
    Spec.perclos, Logic.count_where.
  destruct (Nat.ltb (length eh) 10); [done |].
  destruct (Qltb 0.3 _); [done |].
  by destruct (Qltb 0.15 _ || Qltb 0.5 _).
Qed.

Lemma net_predict_state st ear mar sid :
  (FatigueNet.predict st ear mar sid).2
  = FatigueNet.Analyzer (FatigueNet.history_size st)
      (<[sid := Py.deque_append (FatigueNet.history_size st)
                  (default [] (FatigueNet.ear_history st !! sid)) ear]>
         (FatigueNet.ear_history st))
      (<[sid := Py.deque_append 10
                  (default [] (FatigueNet.mar_history st !! sid)) mar]>
         (FatigueNet.mar_history st)).
Proof.
  unfold FatigueNet.predict.
  destruct (Nat.ltb _ 10); [done |].
  destruct (Qltb FatigueNet.perclos_drowsy _); [done |].
  by destruct (Qltb FatigueNet.perclos_tired _ || _).
Qed.

(** After any stream of readings the windows of a student hold that
    student's most recent samples, whatever was read for other students. *)
Lemma net_feed_windows hs rs sid :
  let st := FatigueNet.feed (FatigueNet.init hs) rs in
  FatigueNet.history_size st = hs
  ∧ default [] (FatigueNet.ear_history st !! sid) = Spec.lastn hs (Spec.ears_of sid rs)
  ∧ default [] (FatigueNet.mar_history st !! sid) = Spec.lastn 10 (Spec.mars_of sid rs).
Proof.
  induction rs as [| r rs IH] using rev_ind; cbn zeta.
  - cbn. by rewrite !lookup_empty.
  - cbn zeta in IH. destruct IH as (Hhs & He & Hm).
    unfold FatigueNet.feed in *. rewrite foldl_app. cbn [foldl].
    rewrite net_predict_state. cbn [FatigueNet.history_size
      FatigueNet.ear_history FatigueNet.mar_history].
    rewrite ears_of_snoc, mars_of_snoc, Hhs. split; [done |].
    destruct (String.eqb_spec r.1.1 sid) as [-> | Hne].
    + rewrite !lookup_insert_eq. cbn [default].
      rewrite He, Hm, !deque_append_lastn. done.
    + rewrite !lookup_insert_ne by done. by rewrite !app_nil_r.
Qed.

Lemma net_predict_stream hs rs sid ear mar :
  let st := FatigueNet.feed (FatigueNet.init hs) rs in
  let ew := Spec.lastn hs (Spec.ears_of sid rs ++ [ear]) in
  let mw := Spec.lastn 10 (Spec.mars_of sid rs ++ [mar]) in
  ∃ level st',
    FatigueNet.predict st ear mar sid = (level, st')
    ∧ FatigueNet.ear_history st' !! sid = Some ew
    ∧ FatigueNet.mar_history st' !! sid = Some mw
    ∧ Spec.classified 0.3 0.15 ew (Qltb 0.5 (mean mw)) level.
Proof.
  intros st ew mw.
  destruct (net_feed_windows hs rs sid) as (Hhs & He & Hm). fold st in Hhs, He, Hm.
  exists (FatigueNet.predict st ear mar sid).1, (FatigueNet.predict st ear mar sid).2.
  split; [by destruct (FatigueNet.predict st ear mar sid) |].
  rewrite net_predict_state, net_predict_level. cbn zeta.
  cbn [FatigueNet.ear_history FatigueNet.mar_history].
  rewrite !lookup_insert_eq, Hhs, He, Hm, !deque_append_lastn.
  split; [done |]. split; [done |]. apply decision_classified.
Qed.

(** *** The class of main.py *)

Lemma main_predict_level (st : gmap string (list Q)) ear mar sid :
  let h := Py.deque_append 30 (default [] (st !! sid)) ear in
  (FatigueAnalyzer.predict st ear mar sid).1
  = (if Nat.ltb (length h) 10 then "alert"
     else if Qltb 0.7 (Spec.perclos h) then "drowsy"
     else if Qltb 0.3 (Spec.perclos h) || Qltb 0.5 mar then "tired"
     else "alert")%string.
Proof.
  intros h. unfold FatigueAnalyzer.predict. fold h.
  unfold Spec.perclos, Logic.count_where.
  destruct (Nat.ltb (length h) 10); [done |].
  destruct (Qltb 0.7 _); [done |].
  by destruct (Qltb 0.3 _ || Qltb 0.5 _).
Qed.

Lemma main_predict_state (st : gmap string (list Q)) ear mar sid :
  (FatigueAnalyzer.predict st ear mar sid).2
  = <[sid := Py.deque_append 30 (default [] (st !! sid)) ear]> st.
Proof.
  unfold FatigueAnalyzer.predict.
  destruct (Nat.ltb _ 10); [done |].
  destruct (Qltb 0.7 _); [done |].
  by destruct (Qltb 0.3 _ || _).
Qed.

Lemma main_feed_windows rs sid :
  default [] (FatigueAnalyzer.feed FatigueAnalyzer.init rs !! sid)
  = Spec.lastn 30 (Spec.ears_of sid rs).
Proof.
  induction rs as [| r rs IH] using rev_ind.
  - unfold FatigueAnalyzer.feed, FatigueAnalyzer.init. cbn [foldl].
    by rewrite lookup_empty.
  - unfold FatigueAnalyzer.feed in *. rewrite foldl_app. cbn [foldl].
    rewrite main_predict_state, ears_of_snoc.
    destruct (String.eqb_spec r.1.1 sid) as [-> | Hne].
    + rewrite lookup_insert_eq. cbn [default].
      by rewrite IH, deque_append_lastn.
    + rewrite lookup_insert_ne by done. by rewrite app_nil_r.
Qed.

Lemma main_predict_stream rs sid ear mar :
  let st := FatigueAnalyzer.feed FatigueAnalyzer.init rs in
  let ew := Spec.lastn 30 (Spec.ears_of sid rs ++ [ear]) in
  ∃ level st',
    FatigueAnalyzer.predict st ear mar sid = (level, st')
    ∧ st' !! sid = Some ew
    ∧ Spec.classified 0.7 0.3 ew (Qltb 0.5 mar) level.
Proof.
  intros st ew. pose proof (main_feed_windows rs sid) as He. fold st in He.
  exists (FatigueAnalyzer.predict st ear mar sid).1,
         (FatigueAnalyzer.predict st ear mar sid).2.
  split; [by destruct (FatigueAnalyzer.predict st ear mar sid) |].
  rewrite main_predict_state, main_predict_level. cbn zeta.
  rewrite lookup_insert_eq, He, deque_append_lastn.
  split; [done |]. apply decision_classified.
Qed.
End FatigueFacts.



(** ** Behavior tags *)

Section BehaviorFacts.
Import Num.
Local Open Scope Q_scope.

Lemma Qabs_cases (x : Q) :
  (0 <= x ∧ Qabs x == x) ∨ (x <= 0 ∧ Qabs x == - x).
Proof.
  destruct (Qlt_le_dec x 0) as [Hneg | Hpos].
  - right. split; [lra |]. apply Qabs_neg. lra.
  - left. split; [done |]. by apply Qabs_pos.
Qed.

Lemma contains_drowsy_tired (fatigue : string) :
  Py.contains fatigue ["drowsy"%string; "tired"%string]
  = String.eqb fatigue "drowsy" || String.eqb fatigue "tired".
Proof.
  unfold Py.contains.
  destruct (String.eqb_spec fatigue "drowsy") as [-> | Hd]; [done |].
  destruct (String.eqb_spec fatigue "tired") as [-> | Ht]; [done |].
  apply bool_decide_eq_false. rewrite !elem_of_cons, elem_of_nil. tauto.
Qed.

(** The direction tag of benavior_engine.py is the first match of the
    documented rule table. *)
Lemma engine_direction (head_pose : gmap string Q) (fatigue : string) :
  List.filter Spec.is_direction (BehaviorEngine.analyze head_pose fatigue)
  = Spec.first_match
      (Spec.direction_rules (Py.dict_get head_pose "yaw" 0)
                            (Py.dict_get head_pose "pitch" 0)).
Proof.
  unfold BehaviorEngine.analyze, Spec.direction_rules, Spec.first_match,
    BehaviorEngine.yaw_front, BehaviorEngine.yaw_side, BehaviorEngine.pitch_down,
    BehaviorEngine.pitch_sleep.
  set (yaw := Py.dict_get head_pose "yaw" 0).
  set (pitch := Py.dict_get head_pose "pitch" 0).
  pose proof (Qabs_cases yaw) as Hyaw.
  destruct (Qle_bool_spec (Qabs yaw) 15) as [Hy15 | Hy15];
    destruct (Qle_bool (Qabs pitch) 20);
    destruct (Qltb 25 pitch);
    destruct (Qltb_spec 45 (Qabs yaw)) as [Hy45 | Hy45];
    destruct (Qltb_spec 20 yaw) as [Hy20 | Hy20];
    destruct (Qltb_spec yaw (-20)) as [Hym | Hym];
    try (exfalso; lra);
    destruct (String.eqb fatigue "drowsy"), (String.eqb fatigue "tired"),
      (Qltb 35 pitch), (Qltb 40 (Qabs pitch));
    reflexivity.
Qed.

(** The fatigue and posture tags of benavior_engine.py. *)
Lemma engine_posture (head_pose : gmap string Q) (fatigue : string) :
  List.filter (λ tag, negb (Spec.is_direction tag))
    (BehaviorEngine.analyze head_pose fatigue)
  = Spec.posture_tags (Py.dict_get head_pose "pitch" 0) fatigue.
Proof.
  unfold BehaviorEngine.analyze, Spec.posture_tags,
    BehaviorEngine.yaw_front, BehaviorEngine.yaw_side, BehaviorEngine.pitch_down,
    BehaviorEngine.pitch_sleep.
  set (yaw := Py.dict_get head_pose "yaw" 0).
  set (pitch := Py.dict_get head_pose "pitch" 0).
  destruct (String.eqb_spec fatigue "drowsy") as [-> | Hd];
    [| destruct (String.eqb fatigue "tired")];
    destruct (Qle_bool (Qabs yaw) 15), (Qle_bool (Qabs pitch) 20),
      (Qltb 25 pitch), (Qltb 45 (Qabs yaw)), (Qltb 20 yaw), (Qltb yaw (-20)),
      (Qltb 35 pitch), (Qltb 40 (Qabs pitch));
    reflexivity.
Qed.

(** The direction tag of main.py is the first match of its own, shorter
    rule table. *)
Lemma inline_direction (head_pose : gmap string Q) (fatigue : string) :
  List.filter Spec.is_direction (BehaviorAnalyzer.analyze head_pose fatigue)
  = Spec.first_match
      (Spec.inline_direction_rules (Py.dict_get head_pose "yaw" 0)
                                   (Py.dict_get head_pose "pitch" 0)).
Proof.
  unfold BehaviorAnalyzer.analyze, Spec.inline_direction_rules, Spec.first_match.
  rewrite contains_drowsy_tired.
  set (yaw := Py.dict_get head_pose "yaw" 0).
  set (pitch := Py.dict_get head_pose "pitch" 0).
  destruct (Qltb (Qabs yaw) 15), (Qltb (Qabs pitch) 20), (Qltb 25 pitch),
    (Qltb 45 (Qabs yaw)), (String.eqb fatigue "drowsy"),
    (String.eqb fatigue "tired"), (Qltb 35 pitch);
    reflexivity.
Qed.

Lemma inline_posture (head_pose : gmap string Q) (fatigue : string) :
  List.filter (λ tag, negb (Spec.is_direction tag))
    (BehaviorAnalyzer.analyze head_pose fatigue)
  = Spec.inline_posture_tags (Py.dict_get head_pose "pitch" 0) fatigue.
Proof.
  unfold BehaviorAnalyzer.analyze, Spec.inline_posture_tags.
  rewrite contains_drowsy_tired.
  set (yaw := Py.dict_get head_pose "yaw" 0).
  set (pitch := Py.dict_get head_pose "pitch" 0).
  destruct (Qltb (Qabs yaw) 15), (Qltb (Qabs pitch) 20), (Qltb 25 pitch),
    (Qltb 45 (Qabs yaw)), (String.eqb fatigue "drowsy"),
    (String.eqb fatigue "tired"), (Qltb 35 pitch);
    reflexivity.
Qed.

Lemma first_match_at_most_one (rules : list (bool * string)) :
  (length (Spec.first_match rules) ≤ 1)%nat.
Proof.
  induction rules as [| [[] tag] rules IH]; cbn; [lia | lia | exact IH].
Qed.

(** C2 (as the code has it). Both analyzers emit at most one direction
    tag, the first match of an ordered rule table.
    - analysis/benavior_engine.py follows the documented table
      (looking_front, looking_down, turning_around, looking_left,
      looking_right); a pose with |yaw| > 45 is tagged [turning_around].
    - main.py uses its own table: |yaw| < 15 and |pitch| < 20 gives
      [looking_front]; else pitch > 25 gives [looking_down], whatever the
      yaw; else |yaw| > 45 gives [turning_around]; it never emits
      [looking_left] or [looking_right]. *)
Theorem direction_tag_is_first_match (head_pose : gmap string Q) (fatigue : string) :
  let yaw := Py.dict_get head_pose "yaw" 0 in
  let pitch := Py.dict_get head_pose "pitch" 0 in
  (let dir := List.filter Spec.is_direction (BehaviorEngine.analyze head_pose fatigue) in
   dir = Spec.first_match (Spec.direction_rules yaw pitch)
   ∧ (length dir ≤ 1)%nat
   ∧ ((45 < Qabs yaw)%Q → dir = ["turning_around"%string]))
  ∧
  (let dir := List.filter Spec.is_direction (BehaviorAnalyzer.analyze head_pose fatigue) in
   dir = Spec.first_match (Spec.inline_direction_rules yaw pitch)
   ∧ (length dir ≤ 1)%nat
   ∧ ("looking_left"%string ∉ dir) ∧ ("looking_right"%string ∉ dir)).
Proof.
  intros yaw pitch. split.
  - intros dir. subst dir. rewrite engine_direction. fold yaw pitch.
    split; [done |]. split; [apply first_match_at_most_one |].
    intros H45. unfold Spec.direction_rules, Spec.first_match.
    destruct (Qle_bool_spec (Qabs yaw) 15) as [H15 | _]; [lra |]. cbn [andb].
    by destruct (Qltb_spec 45 (Qabs yaw)).
  - intros dir. subst dir. rewrite inline_direction. fold yaw pitch.
    split; [done |]. split; [apply first_match_at_most_one |].
    unfold Spec.inline_direction_rules, Spec.first_match.
    destruct (Qltb (Qabs yaw) 15 && Qltb (Qabs pitch) 20), (Qltb 25 pitch),
      (Qltb 45 (Qabs yaw));
      split; rewrite ?elem_of_cons, elem_of_nil;
      first [ by intros [] | by intros [[=] | []] ].
Qed.

(** C2 (counterexample). With yaw 50 and pitch 30 the documented table
    yields [turning_around]; main.py tags the pose [looking_down]. *)
Lemma inline_looking_down_at_yaw_50 :
  let head_pose : gmap string Q := <["yaw"%string := 50%Q]> (<["pitch"%string := 30%Q]> ∅) in
  Spec.first_match (Spec.direction_rules 50 30) = ["turning_around"%string]
  ∧ BehaviorAnalyzer.analyze head_pose "alert" = ["looking_down"%string].
Proof. split; reflexivity. Qed.

(** C3 (as the code has it). The fatigue and posture tags do not depend on
    the yaw or on the direction tag.
    - analysis/benavior_engine.py: drowsy adds [eyes_closed] and, with
      pitch > 35, [head_dropping]; tired adds [rubbing_eyes]; |pitch| > 40
      adds [head_down].
    - main.py: drowsy adds [eyes_closed]; pitch > 35 adds [head_dropping]
      for a drowsy and for a tired student; it never emits [rubbing_eyes]
      or [head_down]. *)
Theorem posture_tags_by_variant (head_pose : gmap string Q) (fatigue : string) :
  let pitch := Py.dict_get head_pose "pitch" 0 in
  List.filter (λ tag, negb (Spec.is_direction tag))
    (BehaviorEngine.analyze head_pose fatigue)
  = Spec.posture_tags pitch fatigue
  ∧ List.filter (λ tag, negb (Spec.is_direction tag))
      (BehaviorAnalyzer.analyze head_pose fatigue)
    = Spec.inline_posture_tags pitch fatigue.
Proof. split; [apply engine_posture | apply inline_posture]. Qed.

(** C3 (counterexample). A tired student with pitch 36 is tagged
    [head_dropping] by main.py, and not [rubbing_eyes]; with pitch 50 no
    [head_down] is added either. *)
Lemma inline_tired_head_dropping :
  BehaviorAnalyzer.analyze (<["pitch"%string := 36%Q]> ∅) "tired"
  = ["looking_down"%string; "head_dropping"%string]
  ∧ Spec.posture_tags 36 "tired" = ["rubbing_eyes"%string]
  ∧ BehaviorAnalyzer.analyze (<["pitch"%string := 50%Q]> ∅) "alert"
    = ["looking_down"%string].
Proof. repeat split; reflexivity. Qed.
End BehaviorFacts.

(** ** The [/analyze] cycle: what an aborted cycle leaves behind *)

Section CycleFacts.
Import Num Logic Server.
Local Open Scope Q_scope.

Lemma predict_in_range landmarks head_pose attention :
  AttentionAnalyzer.predict landmarks head_pose = Some attention →
  in_range attention = true.
Proof.
  unfold AttentionAnalyzer.predict.
  match goal with |- match ?o with _ => _ end = _ → _ => destruct o as [score |] end;
    [| done].
  intros [= <-]. unfold in_range.
  destruct (clip_range score 0 100) as [Hlo Hhi]; [lra |].
  apply andb_true_iff. split; by apply Qle_bool_iff.
Qed.

Lemma engagement_in_range attention fatigue behaviors :
  in_range (calculate_engagement attention fatigue behaviors) = true.
Proof.
  unfold in_range, calculate_engagement.
  match goal with |- context [clip ?x 0 100] =>
    destruct (clip_range x 0 100) as [Hlo Hhi]; [lra |] end.
  apply andb_true_iff. split; by apply Qle_bool_iff.
Qed.

(** A student whose attention score can be computed is classified, and
    the sample stays in the fatigue analyzer. *)
Lemma analyze_student_ok fa student :
  is_Some (AttentionAnalyzer.predict (landmarks student) (head_pose student)) →
  ∃ status,
    analyze_student fa student
    = (Some status,
       (FatigueAnalyzer.predict fa (eye_aspect_ratio student)
          (mouth_aspect_ratio student) (student_id student)).2)
    ∧ fatigue_level status
      = (FatigueAnalyzer.predict fa (eye_aspect_ratio student)
           (mouth_aspect_ratio student) (student_id student)).1.
Proof.
  intros [attention Ha]. unfold analyze_student. rewrite Ha.
  destruct (FatigueAnalyzer.predict _ _ _ _) as [fatigue fa'].
  unfold new_status.
  rewrite (predict_in_range _ _ _ Ha), engagement_in_range. cbn.
  eexists. split; reflexivity.
Qed.

(** A student whose attention score raises leaves the analyzer as it was. *)
Lemma analyze_student_raises fa student :
  AttentionAnalyzer.predict (landmarks student) (head_pose student) = None →
  analyze_student fa student = (None, fa).
Proof. intros Ha. unfold analyze_student. by rewrite Ha. Qed.

Lemma analyze_students_abort fa good bad rest acc :
  Forall (λ s, is_Some (AttentionAnalyzer.predict (landmarks s) (head_pose s))) good →
  AttentionAnalyzer.predict (landmarks bad) (head_pose bad) = None →
  analyze_students fa (good ++ bad :: rest) acc
  = (None, FatigueAnalyzer.feed fa (readings good)).
Proof.
  intros Hgood Hbad. revert fa acc.
  induction Hgood as [| s good Hs _ IH]; intros fa acc; cbn.
  - by rewrite (analyze_student_raises _ _ Hbad).
  - destruct (analyze_student_ok fa s Hs) as (status & -> & _). by rewrite IH.
Qed.

(** Any student whose score raises aborts the loop. *)
Lemma analyze_students_raise fa students acc student :
  student ∈ students →
  AttentionAnalyzer.predict (landmarks student) (head_pose student) = None →
  (analyze_students fa students acc).1 = None.
Proof.
  intros Hin Hbad. revert fa acc.
  induction students as [| s students IH]; intros fa acc;
    [by apply elem_of_nil in Hin |].
  cbn. destruct (analyze_student fa s) as [[status |] fa'] eqn:Hs; [| done].
  apply elem_of_cons in Hin as [-> | Hin]; [| by apply IH].
  rewrite (analyze_student_raises _ _ Hbad) in Hs. discriminate Hs.
Qed.
End CycleFacts.

Section CycleTheorems.
Context {WebSocket : Type} `{EqDecision WebSocket}.
Import Num Logic Server.
Local Open Scope Q_scope.

(** A cycle whose handler returns commits its response to the store. *)
Lemma returned_cycle_commits (st : state WebSocket) (w : world WebSocket) request
    response st' sent :
  post_analyze st w request = (Returned response, st', sent) →
  MemoryStore.get_latest (store st') (classroom_id request)
  = Some (MemoryStore.Latest response (now_latest w)).
Proof.
  unfold post_analyze, analyze_classroom.
  destruct (analyze_students _ _ _) as [[statuses |] fa]; cbn [foldl]; [| done].
  unfold save_and_broadcast.
  destruct (ConnectionManager.broadcast _ _ _ _) as [[m sent'] |];
    intros [= <- <- _]; cbn;
    unfold MemoryStore.get_latest, MemoryStore.add_history, MemoryStore.set_latest;
    cbn; by rewrite lookup_insert_eq.
Qed.

(** C9. If the attention score of any student of the batch raises, the
    cycle ends with the error response (status 500), no background task
    runs and nothing is sent; the store and the connection table are what
    they were: [get_latest] and [get_history] answer as before the cycle. *)
Theorem aborted_cycle_commits_nothing (st : state WebSocket) (w : world WebSocket)
    (request : AnalysisRequest) (student : StudentData) :
  student ∈ students request →
  AttentionAnalyzer.predict (landmarks student) (head_pose student) = None →
  ∃ st',
    post_analyze st w request = (HTTPException 500, st', [])
    ∧ store st' = store st
    ∧ manager st' = manager st
    ∧ (∀ cid, MemoryStore.get_latest (store st') cid
              = MemoryStore.get_latest (store st) cid)
    ∧ (∀ cid limit, MemoryStore.get_history (store st') cid limit
                    = MemoryStore.get_history (store st) cid limit).
Proof.
  intros Hin Hbad. unfold post_analyze, analyze_classroom.
  pose proof (analyze_students_raise (fatigue_analyzer st) _ [] _ Hin Hbad) as Hloop.
  destruct (analyze_students _ _ _) as [[statuses |] fa]; [discriminate Hloop |].
  cbn [foldl]. eexists. split; [reflexivity |]. by repeat split.
Qed.
End CycleTheorems.

(** The second student of the batch carries a mesh without coordinates. *)
Lemma aborted_cycle_commits_nothing_witness :
  let st : Server.state nat :=
    Server.State (MemoryStore.init 100) ∅ FatigueAnalyzer.init in
  let w : Server.world nat := Server.World 1%Z 2%Z 3%Z (λ _ _, true) in
  ∃ st',
    Server.post_analyze st w Scenario.failing_batch
    = (Server.HTTPException 500, st', [])
    ∧ Server.store st' = MemoryStore.init 100.
Proof.
  intros st w.
  destruct (aborted_cycle_commits_nothing st w Scenario.failing_batch
              Scenario.unreadable) as (st' & Hpost & Hstore & _).
  - cbn. apply list_elem_of_further, list_elem_of_here.
  - by vm_compute.
  - exists st'. split; [exact Hpost | exact Hstore].
Defined.

(** C10. When the batch raises at a student after a prefix of students was
    classified, the handler answers with the error and the fatigue
    analyzer keeps the samples it appended for that prefix; submitting
    the same batch again appends them a second time.  This can change a
    classification: with eight closed-eye samples buffered for ["s1"], the
    failing batch classifies ["s1"] as alert the first time and as drowsy
    the second time, and a valid batch sent after it reports drowsy where
    it would have reported alert. *)
Theorem aborted_cycle_keeps_fatigue_samples (fa : FatigueAnalyzer.t)
    (good : list Server.StudentData) (bad : Server.StudentData)
    (rest : list Server.StudentData)
    (cid course ts : string) (count : Z) (now : MemoryStore.time) :
  Forall (λ s, is_Some (AttentionAnalyzer.predict (Server.landmarks s)
                          (Server.head_pose s))) good →
  AttentionAnalyzer.predict (Server.landmarks bad) (Server.head_pose bad) = None →
  let request := Server.Request cid course ts count (good ++ bad :: rest) in
  let samples := Server.readings good in
  Server.analyze_classroom fa request now
  = (Server.HTTPException 500, FatigueAnalyzer.feed fa samples, [])
  ∧ Server.analyze_classroom (FatigueAnalyzer.feed fa samples) request now
    = (Server.HTTPException 500, FatigueAnalyzer.feed fa (samples ++ samples), [])
  ∧ (let fa0 := Scenario.eight_closed in
     let fa1 := (Server.analyze_classroom fa0 Scenario.failing_batch now).1.2 in
     (FatigueAnalyzer.predict fa0 0.1 0 "s1").1 = "alert"%string
     ∧ (FatigueAnalyzer.predict fa1 0.1 0 "s1").1 = "drowsy"%string
     ∧ Server.fatigue_levels
         (Server.analyze_classroom fa0 Scenario.valid_batch now).1.1
       = ["alert"%string]
     ∧ Server.fatigue_levels
         (Server.analyze_classroom fa1 Scenario.valid_batch now).1.1
       = ["drowsy"%string]).
Proof.
  intros Hgood Hbad request samples.
  assert (Hrun : ∀ fa', Server.analyze_classroom fa' request now
                 = (Server.HTTPException 500, FatigueAnalyzer.feed fa' samples, [])).
  { intros fa'. unfold Server.analyze_classroom, request. cbn [Server.students].
    by rewrite (analyze_students_abort _ _ _ _ _ Hgood Hbad). }
  split; [apply Hrun |]. split.
  - rewrite Hrun. unfold FatigueAnalyzer.feed. by rewrite foldl_app.
  - by vm_compute.
Qed.

(** The failing batch of the scenario, sent to a fresh analyzer. *)
Lemma aborted_cycle_keeps_fatigue_samples_witness :
  Server.analyze_classroom FatigueAnalyzer.init Scenario.failing_batch 0%Z
  = (Server.HTTPException 500,
     FatigueAnalyzer.feed FatigueAnalyzer.init [("s1"%string, 0.1%Q, 0%Q)], []).
Proof.
  refine (proj1 (aborted_cycle_keeps_fatigue_samples FatigueAnalyzer.init
                   [Scenario.sleepy] Scenario.unreadable []
                   "room_101" "math_1" "08:00" 2 0%Z _ _)).
  - apply Forall_cons. split; [| apply Forall_nil_2].
    eexists. vm_compute. reflexivity.
  - by vm_compute.
Defined.

(** * Further properties of the code *)

(** ** [MemoryStore] *)

Section MemoryStoreMore.
Context {Data : Type}.
Implicit Types (s : MemoryStore.t Data) (cid : string).
Import MemoryStore.

(** [get_history] by the sign of its limit: a positive limit gives the
    most recent [limit] entries, oldest first; a limit [-k <= 0] gives the
    history without its [k] oldest entries (all of it for 0); an unknown
    classroom gives the empty list. *)
Theorem get_history_by_limit s cid (limit : Z) :
  get_history s cid limit
  = (if (0 <? limit)%Z
     then Spec.lastn (Z.to_nat limit) (history_deque s cid)
     else drop (Z.to_nat (- limit)) (history_deque s cid))
  ∧ (history_data s !! cid = None → get_history s cid limit = []).
Proof.
  split.
  - destruct (Z.ltb_spec 0 limit) as [Hpos | Hneg].
    + by apply get_history_positive.
    + unfold get_history, Py.slice_from, history_deque.
      destruct (Z.ltb_spec (- limit) 0) as [? | _]; [lia |].
      set (h := default [] (history_data s !! cid)).
      destruct (Z.min_spec (- limit) (Z.of_nat (length h))) as [[_ ->] | [Hge ->]];
        [done |].
      rewrite Nat2Z.id, !drop_ge; [done | lia | lia].
  - intros Hnone. unfold get_history. rewrite Hnone. cbn.
    unfold Py.slice_from. by rewrite drop_nil.
Qed.

Lemma run_bounded s (ops : list (op Data)) : bounded s → bounded (run s ops).
Proof.
  revert s. induction ops as [| o ops IH]; intros s Hs; [done |].
  apply IH. destruct o; [by apply set_latest_bounded | by apply add_history_bounded].
Qed.

Lemma run_max_history s (ops : list (op Data)) : max_history (run s ops) = max_history s.
Proof.
  revert s. induction ops as [| o ops IH]; intros s; [done |].
  cbn. unfold run in IH. rewrite IH. by destruct o.
Qed.

Lemma slice_from_length {A} (start : Z) (l : list A) :
  length (Py.slice_from start l) ≤ length l.
Proof. unfold Py.slice_from. rewrite length_drop. lia. Qed.

(** Whatever calls were made on a fresh store, no query returns more than
    [max_history] entries, nor more than a positive [limit]. *)
Theorem history_never_exceeds_max_history (n : nat) (ops : list (op Data)) cid
    (limit : Z) :
  let s := run (init n) ops in
  length (get_history s cid limit) ≤ n
  ∧ ((0 < limit)%Z → (Z.of_nat (length (get_history s cid limit)) ≤ limit)%Z).
Proof.
  intros s.
  assert (Hb : bounded s) by apply run_bounded, init_bounded.
  assert (Hn : max_history s = n) by apply run_max_history.
  pose proof (history_deque_bounded s cid Hb) as Hlen. rewrite Hn in Hlen.
  split.
  - unfold get_history. etrans; [apply slice_from_length | exact Hlen].
  - intros Hpos. rewrite get_history_positive by done.
    rewrite lastn_length. lia.
Qed.

(** [set_latest] and [add_history] act on the slot of one classroom:
    [set_latest] overwrites that classroom's snapshot and leaves every
    history as it is; [add_history] leaves every snapshot and the history
    of every other classroom as it is. *)
Theorem store_updates_one_classroom s cid now (data : Data) :
  (∀ cid', get_latest (set_latest s cid now data) cid'
           = if decide (cid = cid') then Some (Latest data now) else get_latest s cid')
  ∧ (∀ cid' limit, get_history (set_latest s cid now data) cid' limit
                   = get_history s cid' limit)
  ∧ (∀ cid', get_latest (add_history s cid now data) cid' = get_latest s cid')
  ∧ (∀ cid' limit, cid' ≠ cid →
       get_history (add_history s cid now data) cid' limit = get_history s cid' limit).
Proof.
  repeat split.
  - intros cid'. unfold get_latest, set_latest. cbn. apply lookup_insert.
  - intros cid' limit Hne. unfold get_history, add_history. cbn.
    by rewrite lookup_insert_ne.
Qed.

Lemma deque_append_last {A} (n : nat) (d : list A) (x : A) :
  0 < n → last (Py.deque_append n d x) = Some x.
Proof.
  intros Hn. unfold Py.deque_append. rewrite length_app. cbn [length].
  destruct (Nat.ltb_spec n (length d + 1)) as [Hfull | _].
  - destruct d as [| y d]; cbn in *; [lia |]. apply last_snoc.
  - apply last_snoc.
Qed.

(** With a positive capacity, the entry just added is the one
    [get_history] with limit 1 returns, whatever was buffered before. *)
Theorem add_history_then_newest s cid now (data : Data) :
  0 < max_history s →
  get_history (add_history s cid now data) cid 1 = [Entry now data].
Proof.
  intros Hn. rewrite get_history_positive by lia.
  rewrite history_deque_add_history.
  pose proof (deque_append_last (max_history s) (history_deque s cid)
                (Entry now data) Hn) as Hlast.
  destruct (Py.deque_append _ _ _) as [| e d] using rev_ind; [done |].
  rewrite last_snoc in Hlast. injection Hlast as ->.
  unfold Spec.lastn. rewrite length_app. cbn [length].
  replace (length d + 1 - Z.to_nat 1) with (length d + 0) by lia.
  by rewrite drop_app_add.
Qed.
End MemoryStoreMore.

(** A store of capacity 1 that already holds an entry. *)
Lemma add_history_then_newest_witness :
  MemoryStore.get_history
    (MemoryStore.add_history
       (MemoryStore.add_history (MemoryStore.init 1) "room_101" 1%Z 10%Z)
       "room_101" 2%Z 20%Z) "room_101" 1
  = [MemoryStore.Entry 2%Z 20%Z].
Proof.
  apply (add_history_then_newest
           (MemoryStore.add_history (MemoryStore.init 1) "room_101" 1%Z 10%Z)).
  cbn. lia.
Defined.

(** ** [ConnectionManager] *)

Section ConnectionManagerMore.
Context {WebSocket : Type} `{EqDecision WebSocket} {Message : Type}.
Implicit Types (m : gmap string (list WebSocket)) (cid : string).
Implicit Types (conns : list WebSocket) (ws : WebSocket).
Import ConnectionManager.

Lemma discard_absent ws conns : ws ∉ conns → Py.discard ws conns = conns.
Proof.
  induction conns as [| c conns IH]; intros Hnot; [done |].
  apply not_elem_of_cons in Hnot as [Hne Hnot].
  rewrite discard_cons_ne by done. by rewrite IH.
Qed.

Lemma discard_perm ws conns : ws ∈ conns → conns ≡ₚ ws :: Py.discard ws conns.
Proof.
  induction conns as [| c conns IH]; intros Hin; [by apply elem_of_nil in Hin |].
  destruct (decide (ws = c)) as [-> | Hne].
  - by rewrite discard_head.
  - apply elem_of_cons in Hin as [? | Hin]; [done |].
    rewrite discard_cons_ne by done. rewrite (IH Hin) at 1. apply Permutation_swap.
Qed.

(** [disconnect] never raises: it removes the first registration of the
    socket, if there is one, and leaves the other classrooms alone.  As a
    side effect of the [defaultdict], a classroom that was unknown is
    registered with an empty list. *)
Theorem disconnect_removes_first_registration m ws cid :
  disconnect m ws cid = Some (<[cid := Py.discard ws (default [] (m !! cid))]> m)
  ∧ (m !! cid = None → disconnect m ws cid = Some (<[cid := []]> m))
  ∧ (ws ∉ default [] (m !! cid) →
     ∀ m', disconnect m ws cid = Some m' →
           default [] (m' !! cid) = default [] (m !! cid)).
Proof.
  assert (Hd : disconnect m ws cid
               = Some (<[cid := Py.discard ws (default [] (m !! cid))]> m)).
  { destruct (m !! cid) as [conns |] eqn:Hm.
    - by apply disconnect_present.
    - unfold disconnect, touch. rewrite Hm. cbn. done. }
  split; [exact Hd |]. split.
  - intros Hm. rewrite Hd, Hm. done.
  - intros Hnot m'. rewrite Hd. intros [= <-].
    rewrite lookup_insert_eq. cbn. by apply discard_absent.
Qed.

Lemma discard_snoc ws conns : ws ∉ conns → Py.discard ws (conns ++ [ws]) = conns.
Proof.
  induction conns as [| c conns IH]; intros Hnot; cbn [app].
  - apply discard_head.
  - apply not_elem_of_cons in Hnot as [Hne Hnot].
    rewrite discard_cons_ne by done. by rewrite IH.
Qed.

Lemma connect_lookup m ws cid :
  connect m ws cid = <[cid := default [] (m !! cid) ++ [ws]]> m.
Proof.
  unfold connect, touch. destruct (m !! cid) as [conns |]; [done |].
  cbn. by rewrite insert_insert_eq.
Qed.

(** [connect] appends the socket to its classroom's list; disconnecting a
    socket that was not registered before gives back the earlier list. *)
Theorem connect_then_disconnect m ws cid :
  ws ∉ default [] (m !! cid) →
  default [] (connect m ws cid !! cid) = default [] (m !! cid) ++ [ws]
  ∧ (∀ cid', cid' ≠ cid → connect m ws cid !! cid' = m !! cid')
  ∧ disconnect (connect m ws cid) ws cid = Some (<[cid := default [] (m !! cid)]> m).
Proof.
  intros Hnot. rewrite connect_lookup. split; [by rewrite lookup_insert_eq |].
  split; [intros cid' Hne; by rewrite lookup_insert_ne |].
  destruct (disconnect_removes_first_registration
              (<[cid := default [] (m !! cid) ++ [ws]]> m) ws cid) as [-> _].
  rewrite lookup_insert_eq, insert_insert_eq. cbn [default id].
  by rewrite discard_snoc.
Qed.

Lemma send_loop_partition tr i conns :
  conns ≡ₚ (send_loop tr i conns).2 ++ (send_loop tr i conns).1.
Proof.
  revert i. induction conns as [| c conns IH]; intros i; [done |]. cbn.
  specialize (IH (S i)). destruct (send_loop tr (S i) conns) as [ok bad].
  cbn in IH. destruct (tr i c); cbn.
  - rewrite IH at 1. apply Permutation_middle.
  - by rewrite IH at 1.
Qed.

Lemma discard_all_perm (bad conns rest : list WebSocket) :
  conns ≡ₚ bad ++ rest → foldl (λ l x, Py.discard x l) conns bad ≡ₚ rest.
Proof.
  revert conns. induction bad as [| b bad IH]; intros conns Hperm; [done |].
  cbn [foldl]. apply IH.
  assert (Hin : b ∈ conns) by (rewrite Hperm; apply list_elem_of_here).
  rewrite (discard_perm b conns Hin) in Hperm.
  by apply (inj (cons b)) in Hperm.
Qed.

(** Registrations and sends balance, also when a socket is registered
    more than once: after a broadcast the classroom's list is, up to
    order, the list of the sockets that were served. *)
Theorem broadcast_keeps_the_served m cid (msg : Message) tr :
  ∃ m' sent,
    broadcast m cid msg tr = Some (m', sent)
    ∧ default [] (m' !! cid) ≡ₚ sent.*1
    ∧ Forall (λ d, d.2 = msg ∧ d.1 ∈ default [] (m !! cid)) sent.
Proof.
  unfold broadcast. destruct (m !! cid) as [conns |] eqn:Hm; cbn.
  - pose proof (send_loop_partition tr 0 conns) as Hpart.
    pose proof (send_loop_delivered tr 0 conns) as Hok.
    destruct (send_loop tr 0 conns) as [ok bad]. cbn in *.
    rewrite (disconnect_all_present _ _ _ _ Hm).
    eexists _, _. split; [reflexivity |]. rewrite lookup_insert_eq. cbn. split.
    + rewrite (discard_all_perm _ _ _ Hpart).
      rewrite <- list_fmap_compose. by rewrite list_fmap_id.
    + apply Forall_fmap, Forall_forall. intros ws Hws. cbn. split; [done |].
      apply Hok in Hws as (j & Hj & _). apply list_elem_of_lookup. eauto.
  - exists m, []. split; [done |]. split; [by rewrite Hm | constructor].
Qed.

Lemma send_loop_all_ok i conns :
  send_loop (λ _ _, true) i conns = (conns, []).
Proof.
  revert i. induction conns as [| c conns IH]; intros i; [done |].
  cbn. by rewrite IH.
Qed.

Lemma send_loop_all_fail i conns :
  send_loop (λ _ _, false) i conns = ([], conns).
Proof.
  revert i. induction conns as [| c conns IH]; intros i; [done |].
  cbn. by rewrite IH.
Qed.

(** The two extremes.  When every send succeeds the table is unchanged and
    the sockets are served in registration order; when every send fails
    nothing is delivered and the classroom's list is emptied. *)
Theorem broadcast_all_or_nothing m cid (msg : Message) :
  broadcast m cid msg (λ _ _, true)
  = Some (m, (λ c, (c, msg)) <$> default [] (m !! cid))
  ∧ ∃ m', broadcast m cid msg (λ _ _, false) = Some (m', [])
          ∧ default [] (m' !! cid) = []
          ∧ ∀ cid', cid' ≠ cid → m' !! cid' = m !! cid'.
Proof.
  split.
  - unfold broadcast. destruct (m !! cid) as [conns |] eqn:Hm; [| done].
    rewrite send_loop_all_ok. cbn. done.
  - unfold broadcast. destruct (m !! cid) as [conns |] eqn:Hm.
    + rewrite send_loop_all_fail, (disconnect_all_present _ _ _ _ Hm).
      eexists. split; [reflexivity |]. rewrite lookup_insert_eq. cbn. split.
      * apply Permutation_nil_r, discard_all_perm. by rewrite app_nil_r.
      * intros cid' Hne. by rewrite lookup_insert_ne.
    + exists m. by rewrite Hm.
Qed.
End ConnectionManagerMore.

(** A socket joins a classroom with two subscribers and leaves again. *)
Lemma connect_then_disconnect_witness :
  ConnectionManager.disconnect
    (ConnectionManager.connect
       ({[ "room_101"%string := [1; 2] ]} : gmap string (list nat)) 3 "room_101")
    3 "room_101"
  = Some (<["room_101"%string := [1; 2]]>
            ({[ "room_101"%string := [1; 2] ]} : gmap string (list nat))).
Proof.
  refine (eq_trans (proj2 (proj2 (connect_then_disconnect
            ({[ "room_101"%string := [1; 2] ]} : gmap string (list nat))
            3 "room_101" _))) _).
  - rewrite lookup_singleton_eq. cbn. apply (bool_decide_unpack _). reflexivity.
  - by rewrite lookup_singleton_eq.
Defined.

(** ** Attention score *)

Section AttentionMore.
Import Num AttentionAnalyzer.
Local Open Scope Q_scope.

Lemma rectangular_lengths (p : list Q) (pts : list (list Q)) :
  rectangular (p :: pts) = true → Forall (λ q, length q = length p) (p :: pts).
Proof.
  cbn. intros Hall. constructor; [done |].
  apply Forall_forall. intros q Hq%list_elem_of_In.
  rewrite forallb_forall in Hall. by apply Nat.eqb_eq, Hall.
Qed.

Lemma mean_axis0_x_usable (pts : list (list Q)) (x : Q) :
  mean_axis0_x pts = Some x →
  ∃ d, (0 < d)%nat ∧ Forall (λ p, length p = d) pts.
Proof.
  unfold mean_axis0_x.
  destruct (rectangular pts) eqn:Hrect; [| done].
  destruct (mapM head pts) as [xs |] eqn:Hxs; [| done].
  apply mapM_Some in Hxs. destruct Hxs as [| p c pts xs Hp Hrest]; [done |].
  intros _. exists (length p). split.
  - destruct p; [done | cbn; lia].
  - by apply rectangular_lengths.
Qed.

Lemma predict_some_usable landmarks head_pose score :
  predict landmarks head_pose = Some score → Spec.usable_mesh landmarks.
Proof.
  unfold predict, Spec.usable_mesh.
  destruct (Nat.ltb_spec 468 (length landmarks)) as [Hfull | Hsmall];
    [| intros _; by left].
  destruct (mean_axis0_x (take 100 landmarks)) as [x |] eqn:Hmean; [| done].
  intros _. right. by apply (mean_axis0_x_usable _ x).
Qed.

(** [predict] raises exactly on a full mesh (more than 468 points) whose
    first 100 points are ragged or carry no coordinate; the head pose
    plays no part in that. *)
Theorem attention_raises_iff_mesh_unusable (landmarks : list (list Q))
    (head_pose : gmap string Q) :
  predict landmarks head_pose = None ↔ ¬ Spec.usable_mesh landmarks.
Proof.
  split.
  - intros Hnone Hmesh.
    destruct (predict_usable_mesh landmarks head_pose Hmesh) as (score & Hs & _).
    congruence.
  - intros Hnot. destruct (predict landmarks head_pose) as [score |] eqn:Hp; [| done].
    exfalso. by apply Hnot, (predict_some_usable _ head_pose score).
Qed.

Lemma yaw_penalty_range yaw : 0 <= Spec.yaw_penalty yaw <= 40.
Proof.
  unfold Spec.yaw_penalty. destruct (Qltb_spec 15 (Qabs yaw)) as [Hy | Hy]; [| lra].
  destruct (Q.min_spec ((Qabs yaw - 15) * 1.5) 40) as [[? ->] | [? ->]]; lra.
Qed.

Lemma pitch_penalty_range pitch : 0 <= Spec.pitch_penalty pitch <= 25.
Proof.
  unfold Spec.pitch_penalty. destruct (Qltb 20 pitch), (Qltb pitch (-15)); lra.
Qed.

Lemma mesh_penalty_range landmarks : 0 <= Spec.mesh_penalty landmarks <= 15.
Proof. unfold Spec.mesh_penalty. destruct (_ && _); lra. Qed.

(** The penalties add up to 80 at most: a returned score lies between 20
    and 100, so the final clip never changes it.  Without a full mesh and
    with the pitch within [-15, 20], looking aside alone costs 40 at most:
    the score is at least 60 and its level is one of the two best. *)
Theorem attention_score_at_least_20 (landmarks : list (list Q))
    (head_pose : gmap string Q) (score : Q) :
  predict landmarks head_pose = Some score →
  20 <= score <= 100
  ∧ ((length landmarks ≤ 468)%nat →
     -15 <= Py.dict_get head_pose "pitch" 0 <= 20 →
     60 <= score
     ∧ (get_attention_level score = HighlyFocused
        ∨ get_attention_level score = GenerallyAttentive)).
Proof.
  intros Hp.
  pose proof (predict_some_usable _ _ _ Hp) as Hmesh.
  destruct (predict_usable_mesh landmarks head_pose Hmesh) as (score' & Hp' & Hs).
  rewrite Hp in Hp'. injection Hp' as <-.
  unfold Spec.attention_score in Hs.
  set (yaw := Py.dict_get head_pose "yaw" 0) in *.
  set (pitch := Py.dict_get head_pose "pitch" 0) in *.
  pose proof (yaw_penalty_range yaw) as Hy.
  pose proof (pitch_penalty_range pitch) as Hpi.
  pose proof (mesh_penalty_range landmarks) as Hm.
  match type of Hs with _ == clip ?x 0 100 =>
    destruct (clip_cases x 0 100) as [Hc | [Hc | Hc]]; [lra | | |] end;
    [lra | | lra].
  split; [lra |]. intros Hsmall Hpitch.
  assert (Spec.pitch_penalty pitch == 0) as Hpi0.
  { unfold Spec.pitch_penalty.
    destruct (Qltb_spec 20 pitch); [lra |]. destruct (Qltb_spec pitch (-15)); lra. }
  assert (Spec.mesh_penalty landmarks == 0) as Hm0.
  { unfold Spec.mesh_penalty.
    destruct (Nat.ltb_spec 468 (length landmarks)); [lia | done]. }
  assert (H60 : 60 <= score) by lra.
  split; [exact H60 |]. unfold get_attention_level.
  destruct (Qle_bool_spec 80 score); [by left |].
  destruct (Qle_bool_spec 60 score); [by right | lra].
Qed.

Lemma Qabs_opp_eq (x : Q) : Qabs (- x) = Qabs x.
Proof. destruct x as [n d]. cbn. by rewrite Z.abs_opp. Qed.

(** Looking left or right by the same angle costs the same. *)
Theorem attention_ignores_yaw_sign (landmarks : list (list Q))
    (head_pose : gmap string Q) (yaw : Q) :
  predict landmarks (<["yaw"%string := - yaw]> head_pose)
  = predict landmarks (<["yaw"%string := yaw]> head_pose).
Proof.
  unfold predict, Py.dict_get.
  rewrite !lookup_insert_eq, !lookup_insert_ne by done.
  by rewrite Qabs_opp_eq.
Qed.
End AttentionMore.

(** A student looking 50 degrees aside, without a mesh: the score is 60. *)
Lemma attention_score_at_least_20_witness :
  AttentionAnalyzer.predict [] (<["yaw"%string := 50%Q]> ∅) = Some 60%Q
  ∧ (20 <= 60 <= 100)%Q.
Proof.
  split; [reflexivity |].
  apply (attention_score_at_least_20 [] (<["yaw"%string := 50%Q]> ∅) 60%Q).
  reflexivity.
Defined.

(** ** Fatigue classification *)

Section FatigueMore.
Import Num.
Local Open Scope Q_scope.

Lemma of_nat_pos (n : nat) : (0 < n)%nat → 0 < of_nat n.
Proof.
  intros Hn. unfold of_nat. change 0 with (inject_Z 0).
  rewrite <- Zlt_Qlt. lia.
Qed.

Lemma of_nat_succ (n : nat) : of_nat (S n) == of_nat n + 1.
Proof.
  unfold of_nat. rewrite Nat2Z.inj_succ, <- Z.add_1_r, inject_Z_plus. reflexivity.
Qed.

Lemma count_where_all (f : Q → bool) (w : list Q) :
  Forall (λ e, f e = true) w → Logic.count_where f w = length w.
Proof.
  unfold Logic.count_where. induction 1 as [| e w He _ IH]; [done |].
  cbn. rewrite He. cbn. by rewrite IH.
Qed.

Lemma count_where_none (f : Q → bool) (w : list Q) :
  Forall (λ e, f e = false) w → Logic.count_where f w = 0%nat.
Proof.
  unfold Logic.count_where. induction 1 as [| e w He _ IH]; [done |].
  cbn. by rewrite He.
Qed.

Lemma perclos_all_closed (w : list Q) :
  w ≠ [] → Forall (λ e, e < 0.2) w → Spec.perclos w == 1.
Proof.
  intros Hne Hall. unfold Spec.perclos. rewrite count_where_all.
  - unfold Qdiv. apply Qmult_inv_r.
    assert (0 < of_nat (length w)); [| lra].
    apply of_nat_pos. destruct w; [done | cbn; lia].
  - eapply Forall_impl; [exact Hall |]. intros e He. by apply Qltb_lt.
Qed.

Lemma perclos_none_closed (w : list Q) :
  Forall (λ e, 0.2 <= e) w → Spec.perclos w == 0.
Proof.
  intros Hall. unfold Spec.perclos. rewrite count_where_none.
  - unfold Qdiv, of_nat. cbn. apply Qmult_0_l.
  - eapply Forall_impl; [exact Hall |]. intros e He. by apply Qltb_ge.
Qed.

Lemma Qsum_from (a : Q) (l : list Q) : foldl Qplus a l == a + Qsum l.
Proof.
  unfold Qsum. revert a. induction l as [| x l IH]; intros a; cbn.
  - lra.
  - rewrite (IH (a + x)), (IH (0 + x)). lra.
Qed.

Lemma Qsum_bounds (lo hi : Q) (l : list Q) :
  Forall (λ x, lo <= x <= hi) l →
  lo * of_nat (length l) <= Qsum l <= hi * of_nat (length l).
Proof.
  induction 1 as [| x l Hx _ IH].
  - change (of_nat (length [])) with 0. change (Qsum []) with 0. lra.
  - cbn [length]. rewrite of_nat_succ.
    assert (Hsum : Qsum (x :: l) == x + Qsum l).
    { unfold Qsum at 1. cbn [foldl]. rewrite Qsum_from. lra. }
    rewrite Hsum. lra.
Qed.

(** The mean of a non-empty list lies between any bounds of its items. *)
Lemma mean_bounds (lo hi : Q) (l : list Q) :
  l ≠ [] → Forall (λ x, lo <= x <= hi) l → lo <= mean l <= hi.
Proof.
  intros Hne Hall. destruct (Qsum_bounds lo hi l Hall) as [Hlo Hhi].
  assert (Hn : 0 < of_nat (length l)).
  { apply of_nat_pos. destruct l; [done | cbn; lia]. }
  unfold mean. split.
  - by apply Qle_shift_div_l.
  - by apply Qle_shift_div_r.
Qed.

Lemma lastn_app_length {A} (n : nat) (l : list A) (x : A) :
  (length (Spec.lastn n (l ++ [x])) ≤ length l + 1)%nat.
Proof. rewrite lastn_length, length_app. cbn. lia. Qed.

(** Warm-up: while fewer than ten samples of a student have been read,
    both analyzers answer [alert], whatever the samples are. *)
Theorem fatigue_alert_during_warm_up (hs : nat) (rs : list Spec.reading)
    (sid : string) (ear mar : Q) :
  (length (Spec.ears_of sid rs) < 9)%nat →
  (FatigueNet.predict (FatigueNet.feed (FatigueNet.init hs) rs) ear mar sid).1
  = "alert"%string
  ∧ (FatigueAnalyzer.predict (FatigueAnalyzer.feed FatigueAnalyzer.init rs)
       ear mar sid).1 = "alert"%string.
Proof.
  intros Hshort. split.
  - destruct (net_predict_stream hs rs sid ear mar) as (level & st' & -> & _ & _ & Hc).
    unfold Spec.classified in Hc. rewrite decide_True in Hc; [done |].
    pose proof (lastn_app_length hs (Spec.ears_of sid rs) ear). lia.
  - destruct (main_predict_stream rs sid ear mar) as (level & st' & -> & _ & Hc).
    unfold Spec.classified in Hc. rewrite decide_True in Hc; [done |].
    pose proof (lastn_app_length 30 (Spec.ears_of sid rs) ear). lia.
Qed.

(** Once the window of a student holds at least ten samples and all of
    them are below 0.2, both analyzers answer [drowsy] (PERCLOS is 1);
    thirty closed-eye samples in a row are enough, whatever came before. *)
Theorem fatigue_drowsy_when_window_closed (hs : nat) (rs : list Spec.reading)
    (sid : string) (ear mar : Q) :
  let ears := Spec.ears_of sid rs ++ [ear] in
  ((10 ≤ length (Spec.lastn hs ears))%nat →
   Forall (λ e, e < 0.2) (Spec.lastn hs ears) →
   (FatigueNet.predict (FatigueNet.feed (FatigueNet.init hs) rs) ear mar sid).1
   = "drowsy"%string)
  ∧ ((10 ≤ length (Spec.lastn 30 ears))%nat →
     Forall (λ e, e < 0.2) (Spec.lastn 30 ears) →
     (FatigueAnalyzer.predict (FatigueAnalyzer.feed FatigueAnalyzer.init rs)
        ear mar sid).1 = "drowsy"%string).
Proof.
  intros ears. split; intros Hlen Hall.
  - destruct (net_predict_stream hs rs sid ear mar) as (level & st' & -> & _ & _ & Hc).
    fold ears in Hc. unfold Spec.classified in Hc.
    rewrite decide_False in Hc by lia. destruct Hc as [Hd _]. apply Hd.
    rewrite perclos_all_closed; [lra | | done].
    intros Hnil. rewrite Hnil in Hlen. cbn in Hlen. lia.
  - destruct (main_predict_stream rs sid ear mar) as (level & st' & -> & _ & Hc).
    fold ears in Hc. unfold Spec.classified in Hc.
    rewrite decide_False in Hc by lia. destruct Hc as [Hd _]. apply Hd.
    rewrite perclos_all_closed; [lra | | done].
    intros Hnil. rewrite Hnil in Hlen. cbn in Hlen. lia.
Qed.

(** No false alarm: when every buffered eye sample is at least 0.2 and
    the mouth stays at or below 0.5 (every buffered sample for
    fatigue_net.py, the current one for main.py), the answer is [alert]. *)
Theorem fatigue_alert_when_eyes_open (hs : nat) (rs : list Spec.reading)
    (sid : string) (ear mar : Q) :
  let ears := Spec.ears_of sid rs ++ [ear] in
  let mars := Spec.mars_of sid rs ++ [mar] in
  (Forall (λ e, 0.2 <= e) (Spec.lastn hs ears) →
   Forall (λ x, 0 <= x <= 0.5) (Spec.lastn 10 mars) →
   (FatigueNet.predict (FatigueNet.feed (FatigueNet.init hs) rs) ear mar sid).1
   = "alert"%string)
  ∧ (Forall (λ e, 0.2 <= e) (Spec.lastn 30 ears) →
     mar <= 0.5 →
     (FatigueAnalyzer.predict (FatigueAnalyzer.feed FatigueAnalyzer.init rs)
        ear mar sid).1 = "alert"%string).
Proof.
  intros ears mars. split.
  - intros Hopen Hmouth.
    destruct (net_predict_stream hs rs sid ear mar) as (level & st' & -> & _ & _ & Hc).
    fold ears mars in Hc. unfold Spec.classified in Hc.
    case_decide as Hlen; [done |]. destruct Hc as (_ & _ & Ha).
    pose proof (perclos_none_closed _ Hopen) as Hp.
    assert (Hmean : mean (Spec.lastn 10 mars) <= 0.5).
    { apply (mean_bounds 0 0.5); [| done].
      assert (Hm : length mars = S (length (Spec.mars_of sid rs))).
      { unfold mars. rewrite length_app. cbn. lia. }
      intros Hnil%(f_equal length). rewrite lastn_length, Hm in Hnil.
      cbn [length] in Hnil. lia. }
    apply Ha; [lra |]. intros [Ht | Hy]; [lra |].
    apply Qltb_lt in Hy. lra.
  - intros Hopen Hmouth.
    destruct (main_predict_stream rs sid ear mar) as (level & st' & -> & _ & Hc).
    fold ears in Hc. unfold Spec.classified in Hc.
    case_decide as Hlen; [done |]. destruct Hc as (_ & _ & Ha).
    pose proof (perclos_none_closed _ Hopen) as Hp.
    apply Ha; [lra |]. intros [Ht | Hy]; [lra |].
    apply Qltb_lt in Hy. lra.
Qed.

(** An analyzer of fatigue_net.py built with [history_size] below 10 can
    never fill the ten samples it waits for: it answers [alert] always. *)
Theorem fatigue_net_small_history_always_alert (hs : nat) (rs : list Spec.reading)
    (sid : string) (ear mar : Q) :
  (hs < 10)%nat →
  (FatigueNet.predict (FatigueNet.feed (FatigueNet.init hs) rs) ear mar sid).1
  = "alert"%string.
Proof.
  intros Hhs.
  destruct (net_predict_stream hs rs sid ear mar) as (level & st' & -> & _ & _ & Hc).
  unfold Spec.classified in Hc. rewrite decide_True in Hc; [done |].
  rewrite lastn_length. lia.
Qed.

(** The windows never outgrow their capacity: [history_size] ear samples
    and 10 mar samples per student in fatigue_net.py, 30 ear samples per
    student in main.py. *)
Theorem fatigue_windows_bounded (hs : nat) (rs : list Spec.reading) (sid : string) :
  (∀ w, FatigueNet.ear_history (FatigueNet.feed (FatigueNet.init hs) rs) !! sid = Some w
        → (length w ≤ hs)%nat)
  ∧ (∀ w, FatigueNet.mar_history (FatigueNet.feed (FatigueNet.init hs) rs) !! sid = Some w
          → (length w ≤ 10)%nat)
  ∧ (∀ w, FatigueAnalyzer.feed FatigueAnalyzer.init rs !! sid = Some w
          → (length w ≤ 30)%nat).
Proof.
  destruct (net_feed_windows hs rs sid) as (_ & He & Hm).
  pose proof (main_feed_windows rs sid) as Hi.
  repeat split; intros w Hw; rewrite Hw in *; cbn in *; subst w;
    rewrite lastn_length; lia.
Qed.

End FatigueMore.

(** Three earlier samples of ["s1"], all with closed eyes. *)
Lemma fatigue_alert_during_warm_up_witness :
  (FatigueAnalyzer.predict
     (FatigueAnalyzer.feed FatigueAnalyzer.init (replicate 3 ("s1"%string, 0.1%Q, 0%Q)))
     0.1 0 "s1").1 = "alert"%string.
Proof.
  refine (proj2 (fatigue_alert_during_warm_up 30
                   (replicate 3 ("s1"%string, 0.1%Q, 0%Q)) "s1" 0.1 0 _)).
  cbn. lia.
Defined.

(** Thirty closed-eye samples in a row. *)
Lemma fatigue_drowsy_when_window_closed_witness :
  (FatigueAnalyzer.predict
     (FatigueAnalyzer.feed FatigueAnalyzer.init (replicate 29 ("s1"%string, 0.1%Q, 0%Q)))
     0.1 0 "s1").1 = "drowsy"%string.
Proof.
  refine (proj2 (fatigue_drowsy_when_window_closed 30
                   (replicate 29 ("s1"%string, 0.1%Q, 0%Q)) "s1" 0.1 0) _ _).
  - cbn. lia.
  - apply Forall_forall. intros e He.
    assert (Hw : Spec.lastn 30 (Spec.ears_of "s1"
                   (replicate 29 ("s1"%string, 0.1%Q, 0%Q)) ++ [0.1%Q])
                 = replicate 30 0.1%Q) by reflexivity.
    rewrite Hw in He. apply elem_of_replicate in He as [-> _]. reflexivity.
Defined.

(** Ten samples with open eyes and a closed mouth. *)
Lemma fatigue_alert_when_eyes_open_witness :
  (FatigueAnalyzer.predict
     (FatigueAnalyzer.feed FatigueAnalyzer.init (replicate 9 ("s1"%string, 0.3%Q, 0.1%Q)))
     0.3 0.1 "s1").1 = "alert"%string.
Proof.
  refine (proj2 (fatigue_alert_when_eyes_open 30
                   (replicate 9 ("s1"%string, 0.3%Q, 0.1%Q)) "s1" 0.3 0.1) _ _).
  - apply Forall_forall. intros e He.
    assert (Hw : Spec.lastn 30 (Spec.ears_of "s1"
                   (replicate 9 ("s1"%string, 0.3%Q, 0.1%Q)) ++ [0.3%Q])
                 = replicate 10 0.3%Q) by reflexivity.
    rewrite Hw in He. apply elem_of_replicate in He as [-> _]. by vm_compute.
  - by vm_compute.
Defined.

(** An analyzer built with [history_size = 5], after twenty closed-eye
    samples. *)
Lemma fatigue_net_small_history_always_alert_witness :
  (FatigueNet.predict
     (FatigueNet.feed (FatigueNet.init 5) (replicate 20 ("s1"%string, 0.1%Q, 0%Q)))
     0.1 0 "s1").1 = "alert"%string.
Proof.
  apply (fatigue_net_small_history_always_alert 5
           (replicate 20 ("s1"%string, 0.1%Q, 0%Q)) "s1" 0.1 0).
  lia.
Defined.

(** ** Behavior tags *)

Section BehaviorMore.
Import Num.
Local Open Scope Q_scope.
Local Set Warnings "-clear-no-such-hyp".

(** Case analysis on the tests a function runs, in the order it runs
    them, turning each outcome into the inequality it stands for. *)
Ltac case_tests :=
  repeat match goal with
    | |- context [if Qltb ?x ?y then _ else _] => destruct (Qltb_spec x y)
    | |- context [if Qle_bool ?x ?y then _ else _] => destruct (Qle_bool_spec x y)
    | |- context [if String.eqb ?x ?y then _ else _] => destruct (String.eqb_spec x y)
    | |- context [Qltb ?x ?y && _] => destruct (Qltb_spec x y); cbn [andb]
    | |- context [String.eqb ?x ?y || _] => destruct (String.eqb_spec x y); cbn [orb]
    end.

Ltac eval_test :=
  match goal with
  | |- ?b = true ↔ _ => let v := eval vm_compute in b in change b with v
  end.

(** [is_attentive] on the tags of benavior_engine.py: a student counts as
    attentive exactly when facing the front (|yaw| <= 15) with the head
    level (|pitch| <= 20) or lowered over the desk (pitch > 25), and not
    drowsy. *)
Theorem engine_attentive_iff (head_pose : gmap string Q) (fatigue : string) :
  let yaw := Py.dict_get head_pose "yaw" 0 in
  let pitch := Py.dict_get head_pose "pitch" 0 in
  BehaviorEngine.is_attentive (BehaviorEngine.analyze head_pose fatigue) = true
  ↔ Qabs yaw <= 15 ∧ (Qabs pitch <= 20 ∨ 25 < pitch) ∧ fatigue ≠ "drowsy"%string.
Proof.
  intros yaw pitch.
  unfold BehaviorEngine.analyze, BehaviorEngine.yaw_front, BehaviorEngine.yaw_side,
    BehaviorEngine.pitch_down, BehaviorEngine.pitch_sleep.
  fold yaw pitch.
  pose proof (Qabs_cases yaw) as Hyaw.
  case_tests; eval_test;
    (split;
     [ first [ discriminate
             | intros _; split; [assumption |]; split;
               [ first [by left | by right] | congruence ] ]
     | first [ reflexivity
             | intros (Hy & Hp & Hf); exfalso;
               first [ by apply Hf | lra | destruct Hp; lra ] ] ]).
Qed.

(** What comes with [head_dropping]: in main.py the pose is then also
    tagged [looking_down] and the student is drowsy or tired; in
    benavior_engine.py the student is then also tagged [eyes_closed]. *)
Theorem head_dropping_companions (head_pose : gmap string Q) (fatigue : string) :
  ("head_dropping"%string ∈ BehaviorAnalyzer.analyze head_pose fatigue →
   "looking_down"%string ∈ BehaviorAnalyzer.analyze head_pose fatigue
   ∧ (fatigue = "drowsy"%string ∨ fatigue = "tired"%string))
  ∧ ("head_dropping"%string ∈ BehaviorEngine.analyze head_pose fatigue →
     "eyes_closed"%string ∈ BehaviorEngine.analyze head_pose fatigue).
Proof.
  split.
  - unfold BehaviorAnalyzer.analyze. rewrite contains_drowsy_tired.
    set (yaw := Py.dict_get head_pose "yaw" 0).
    set (pitch := Py.dict_get head_pose "pitch" 0).
    pose proof (Qabs_cases pitch) as Hpitch.
    destruct (Qltb_spec 35 pitch) as [H35 | H35]; cbn [andb].
    + destruct (Qltb (Qabs yaw) 15); cbn [andb];
        destruct (Qltb_spec (Qabs pitch) 20); try lra;
        destruct (Qltb_spec 25 pitch); try lra;
        destruct (String.eqb_spec fatigue "drowsy");
        destruct (String.eqb_spec fatigue "tired"); cbn [orb];
        intros Hin;
        first [ split; [set_solver | tauto] | exfalso; set_solver ].
    + destruct (Qltb (Qabs yaw) 15 && Qltb (Qabs pitch) 20), (Qltb 25 pitch),
        (Qltb 45 (Qabs yaw)), (String.eqb fatigue "drowsy"); set_solver.
  - unfold BehaviorEngine.analyze.
    destruct (String.eqb fatigue "drowsy").
    + intros _. repeat match goal with |- context [if ?b then _ else _] => destruct b end;
        set_solver.
    + repeat match goal with |- context [if ?b then _ else _] => destruct b end;
        set_solver.
Qed.
End BehaviorMore.

(** ** Engagement, suggestions, recommendations and alerts *)

Section LogicMore.
Import Num Logic.
Local Open Scope Q_scope.
Local Set Warnings "-clear-no-such-hyp".

Lemma clip_mono x y lo hi : lo <= hi → x <= y → clip x lo hi <= clip y lo hi.
Proof.
  intros Hlh Hxy.
  destruct (clip_cases x lo hi Hlh) as [H | [H | H]];
    destruct (clip_cases y lo hi Hlh) as [H' | [H' | H']]; lra.
Qed.

Lemma engagement_closed_form attention fatigue behaviors :
  calculate_engagement attention fatigue behaviors
  == clip (attention + Py.dict_get penalties fatigue 0 + Spec.bonus_sum behaviors) 0 100.
Proof.
  unfold calculate_engagement. apply clip_proper; [lra |]. by rewrite bonus_loop.
Qed.

Lemma penalties_unknown (fatigue : string) :
  fatigue ≠ "alert"%string → fatigue ≠ "tired"%string → fatigue ≠ "drowsy"%string →
  Py.dict_get penalties fatigue 0 = 0.
Proof.
  intros Ha Ht Hd. unfold Py.dict_get, penalties. cbn [list_to_map foldr fst snd].
  rewrite !lookup_insert_ne by done. by rewrite lookup_empty.
Qed.

(** The engagement index grows with the attention score, and for the same
    attention and tags a drowsy student never scores above a tired one,
    nor a tired one above an alert one.  A fatigue level the table does
    not know counts like [alert]. *)
Theorem engagement_monotone (attention attention' : Q) (fatigue : string)
    (behaviors : list string) :
  attention <= attention' →
  calculate_engagement attention fatigue behaviors
  <= calculate_engagement attention' fatigue behaviors
  ∧ calculate_engagement attention "drowsy" behaviors
    <= calculate_engagement attention "tired" behaviors
  ∧ calculate_engagement attention "tired" behaviors
    <= calculate_engagement attention "alert" behaviors
  ∧ (fatigue ≠ "alert"%string → fatigue ≠ "tired"%string →
     fatigue ≠ "drowsy"%string →
     calculate_engagement attention fatigue behaviors
     = calculate_engagement attention "alert" behaviors).
Proof.
  intros Hle.
  pose proof (engagement_closed_form attention fatigue behaviors) as E.
  pose proof (engagement_closed_form attention' fatigue behaviors) as E'.
  pose proof (engagement_closed_form attention "drowsy" behaviors) as Ed.
  pose proof (engagement_closed_form attention "tired" behaviors) as Et.
  pose proof (engagement_closed_form attention "alert" behaviors) as Ea.
  change (Py.dict_get penalties "drowsy" 0) with (-30) in Ed.
  change (Py.dict_get penalties "tired" 0) with (-10) in Et.
  change (Py.dict_get penalties "alert" 0) with 0 in Ea.
  set (p := Py.dict_get penalties fatigue 0) in *.
  set (b := Spec.bonus_sum behaviors) in *.
  assert (H1 : clip (attention + p + b) 0 100 <= clip (attention' + p + b) 0 100)
    by (apply clip_mono; lra).
  assert (H2 : clip (attention + -30 + b) 0 100 <= clip (attention + -10 + b) 0 100)
    by (apply clip_mono; lra).
  assert (H3 : clip (attention + -10 + b) 0 100 <= clip (attention + 0 + b) 0 100)
    by (apply clip_mono; lra).
  split; [lra |]. split; [lra |]. split; [lra |].
  intros Ha Ht Hd. unfold calculate_engagement.
  by rewrite (penalties_unknown fatigue Ha Ht Hd).
Qed.

(** The suggestions of one student: at most three, the fatigue message
    first.  A drowsy student gets the wake-up message at the head of the
    list; the discipline message is there exactly when the student is
    turning around; the list is empty exactly for a student who is
    neither drowsy nor tired, has attention of 60 or more and is not
    turning around. *)
Theorem suggestions_shape (attention : Q) (fatigue : string) (behaviors : list string) :
  let s := generate_suggestions attention fatigue behaviors in
  (length s ≤ 3)%nat
  ∧ (fatigue = "drowsy"%string → head s = Some SuggestWakeUp)
  ∧ (fatigue = "tired"%string → head s = Some SuggestQuestion)
  ∧ (SuggestDiscipline ∈ s ↔ "turning_around"%string ∈ behaviors)
  ∧ ¬ (SuggestIntervene ∈ s ∧ SuggestInteraction ∈ s)
  ∧ (s = [] ↔ fatigue ≠ "drowsy"%string ∧ fatigue ≠ "tired"%string
              ∧ 60 <= attention ∧ "turning_around"%string ∉ behaviors).
Proof.
  unfold generate_suggestions, Py.contains. cbn zeta.
  destruct (String.eqb_spec fatigue "drowsy") as [-> | Hd];
    [| destruct (String.eqb_spec fatigue "tired") as [-> | Ht]];
    destruct (Qltb_spec attention 40); try destruct (Qltb_spec attention 60);
    case_bool_decide as Hturn; cbn;
    (split; [lia |]); (split; [done |]); (split; [done |]);
    (split; [set_solver |]); (split; [set_solver |]);
    (split; [ try done; intros _; repeat split; first [done | lra]
            | try done; intros (? & ? & ? & ?);
              first [done | lra | congruence] ]).
Qed.
End LogicMore.

(** Attention 50 against attention 70, for a tired student facing the
    front. *)
Lemma engagement_monotone_witness :
  (Logic.calculate_engagement 50 "tired" ["looking_front"%string]
   <= Logic.calculate_engagement 70 "tired" ["looking_front"%string])%Q.
Proof.
  refine (proj1 (engagement_monotone 50 70 "tired" ["looking_front"%string] _)).
  by vm_compute.
Defined.

Section ClassroomMore.
Import Num Logic.
Local Open Scope Q_scope.
Local Set Warnings "-clear-no-such-hyp".

(** The recommendations are never empty.  The waiting message stands for
    an empty roster and for nothing else; the all-good message only ever
    comes alone; of the two attention messages, and of the two drowsiness
    messages, at most one is given; the visualisation hint needs a course
    id containing "math" in any letter case. *)
Theorem recommendations_shape (statuses : list StudentStatus) (course_id : string) :
  let r := generate_teaching_recommendations statuses course_id in
  r ≠ []
  ∧ (RecWaiting ∈ r ↔ statuses = [])
  ∧ (RecGood ∈ r → r = [RecGood])
  ∧ ¬ (RecAttentionLow ∈ r ∧ RecAttentionDrifting ∈ r)
  ∧ ¬ (RecBreak ∈ r ∧ RecVoice ∈ r)
  ∧ (RecVisualise ∈ r → substring_of "math" (lower course_id) = true).
Proof.
  unfold generate_teaching_recommendations.
  destruct statuses as [| s statuses].
  - cbn zeta. repeat split; rewrite ?elem_of_cons, ?elem_of_nil;
      intuition (try discriminate; try congruence).
  - cbn zeta.
    destruct (substring_of "math" (lower course_id)) eqn:Hmath; cbn [andb];
      repeat match goal with
        | |- context [if ?b then _ else _] =>
            match type of b with bool => destruct b end
        end;
      cbn [app];
      repeat split; rewrite ?elem_of_cons, ?elem_of_nil;
      intuition (try discriminate; try congruence).
Qed.

(** The alerts report counts: a critical alert carrying [n] is raised
    exactly when [n > 0] students have an engagement below 20, a sleeping
    alert carrying [n] exactly when [n > 2] students are tagged
    [head_dropping]; one or two such students raise no sleeping alert. *)
Theorem anomalies_report_counts (statuses : list StudentStatus) (n : nat) :
  let critical := count_where (λ s, Qltb (engagement_index s) 20) statuses in
  let sleeping :=
    count_where (λ s, Py.contains "head_dropping"%string (behavior_tags s)) statuses in
  (AlertCritical n ∈ detect_anomalies statuses ↔ n = critical ∧ (0 < n)%nat)
  ∧ (AlertSleeping n ∈ detect_anomalies statuses ↔ n = sleeping ∧ (2 < n)%nat).
Proof.
  unfold detect_anomalies, count_where. cbn zeta.
  set (crit := length (List.filter (λ s, Qltb (engagement_index s) 20) statuses)).
  set (sleep := length (List.filter (λ s, Py.contains _ (behavior_tags s)) statuses)).
  destruct (Nat.ltb_spec 0 crit), (Nat.ltb_spec 2 sleep); cbn [app];
    rewrite ?elem_of_cons, ?elem_of_nil;
    (split; split; intros Hyp);
    repeat match goal with
      | H : _ ∨ _ |- _ => destruct H
      | H : _ ∧ _ |- _ => destruct H
      | H : False |- _ => destruct H
      | H : AlertCritical _ = AlertCritical _ |- _ => injection H as ->
      | H : AlertSleeping _ = AlertSleeping _ |- _ => injection H as ->
      | H : AlertCritical _ = AlertSleeping _ |- _ => discriminate H
      | H : AlertSleeping _ = AlertCritical _ |- _ => discriminate H
      end;
    subst; try lia; try (split; [reflexivity | lia]);
    first [ by left | by right; left ].
Qed.
End ClassroomMore.

(** ** The [/analyze] cycle and the query endpoints *)

Section CycleMore.
Context {WebSocket : Type} `{EqDecision WebSocket}.
Import Num Logic Server.
Local Open Scope Q_scope.

Lemma analyze_student_status fa student :
  Spec.usable_mesh (landmarks student) →
  ∃ status,
    analyze_student fa student
    = (Some status,
       (FatigueAnalyzer.predict fa (eye_aspect_ratio student)
          (mouth_aspect_ratio student) (student_id student)).2)
    ∧ status_of student status.
Proof.
  intros Hmesh.
  destruct (predict_usable_mesh _ (head_pose student) Hmesh) as (attention & Ha & _).
  unfold analyze_student. rewrite Ha.
  destruct (FatigueAnalyzer.predict _ _ _ _) as [fatigue fa'].
  unfold new_status.
  rewrite (predict_in_range _ _ _ Ha), engagement_in_range. cbn.
  eexists. split; [reflexivity |]. by repeat split.
Qed.

Lemma analyze_students_statuses fa students acc :
  Forall (λ s, Spec.usable_mesh (landmarks s)) students →
  ∃ statuses,
    analyze_students fa students acc
    = (Some (acc ++ statuses), FatigueAnalyzer.feed fa (readings students))
    ∧ Forall2 status_of students statuses.
Proof.
  intros Hall. revert fa acc.
  induction Hall as [| s students Hs _ IH]; intros fa acc; cbn.
  - exists []. by rewrite app_nil_r.
  - destruct (analyze_student_status fa s Hs) as (status & -> & Hst).
    destruct (IH (FatigueAnalyzer.predict fa (eye_aspect_ratio s)
                    (mouth_aspect_ratio s) (student_id s)).2 (acc ++ [status]))
      as (statuses & -> & Hsts).
    exists (status :: statuses). rewrite <- app_assoc. split; [done |].
    by constructor.
Qed.

Lemma status_of_ranges student status :
  status_of student status →
  20 <= attention_score status <= 100 ∧ 0 <= engagement_index status <= 100.
Proof.
  intros (_ & Ha & _ & He & _). split.
  - by apply (attention_score_at_least_20 _ _ _ Ha).
  - rewrite He. apply clip_range. lra.
Qed.

(** A batch whose meshes can all be read is answered: the response
    carries one status per student, in roster order and under the
    student's id, each computed from that student's features by the
    analyzers of main.py; attention scores lie in [20, 100], engagement
    indices in [0, 100]; the overall attention is 0 for an empty roster
    and lies in [20, 100] otherwise; every student's sample has been
    appended to the fatigue analyzer and one save-and-broadcast task is
    scheduled. *)
Theorem analyze_classroom_returns (fa : FatigueAnalyzer.t) (request : AnalysisRequest)
    (now : MemoryStore.time) :
  Forall (λ s, Spec.usable_mesh (landmarks s)) (students request) →
  ∃ response,
    analyze_classroom fa request now
    = (Returned response,
       FatigueAnalyzer.feed fa (readings (students request)),
       [(classroom_id request, response)])
    ∧ response_classroom_id response = classroom_id request
    ∧ analysis_timestamp response = now
    ∧ Forall2 status_of (students request) (student_statuses response)
    ∧ Forall (λ s, 20 <= attention_score s <= 100 ∧ 0 <= engagement_index s <= 100)
        (student_statuses response)
    ∧ (students request = [] → overall_attention response = 0)
    ∧ (students request ≠ [] → 20 <= overall_attention response <= 100).
Proof.
  intros Hall. unfold analyze_classroom.
  destruct (analyze_students_statuses fa (students request) [] Hall)
    as (statuses & -> & Hsts).
  cbn [app]. eexists. split; [reflexivity |]. cbn.
  assert (Hranges : Forall (λ s, 20 <= attention_score s <= 100
                                 ∧ 0 <= engagement_index s <= 100) statuses).
  { clear -Hsts. induction Hsts as [| s st ss sts Hst _ IH]; constructor; [| done].
    by apply (status_of_ranges s). }
  split; [done |]. split; [done |]. split; [exact Hsts |].
  split; [exact Hranges |]. split.
  - intros Hnil. rewrite Hnil in Hsts. by apply Forall2_nil_inv_l in Hsts as ->.
  - intros Hne. destruct statuses as [| st statuses].
    { apply Forall2_nil_inv_r in Hsts. done. }
    apply (mean_bounds 20 100); [done |].
    apply Forall_fmap. eapply Forall_impl; [exact Hranges |].
    intros s [Hs _]. exact Hs.
Qed.

(** A returned cycle is committed and sent: afterwards the classroom's
    status endpoint answers with the response, the response is the newest
    history entry (capacity permitting), the snapshots of other classrooms
    are untouched, every delivery carries the response, and the sockets
    still registered for the classroom are the ones that were served. *)
Theorem returned_cycle_is_committed (st : state WebSocket) (w : world WebSocket)
    (request : AnalysisRequest) :
  Forall (λ s, Spec.usable_mesh (landmarks s)) (students request) →
  ∃ response st' sent,
    post_analyze st w request = (Returned response, st', sent)
    ∧ get_status st' (classroom_id request) = Returned response
    ∧ ((0 < MemoryStore.max_history (store st))%nat →
       MemoryStore.get_history (store st') (classroom_id request) 1
       = [MemoryStore.Entry (now_history w) response])
    ∧ (∀ cid, cid ≠ classroom_id request → get_status st' cid = get_status st cid)
    ∧ Forall (λ d, d.2 = response) sent
    ∧ default [] (manager st' !! classroom_id request) ≡ₚ sent.*1.
Proof.
  intros Hall. unfold post_analyze.
  destruct (analyze_classroom_returns (fatigue_analyzer st) request (now_analysis w) Hall)
    as (response & -> & _).
  cbn [foldl]. unfold save_and_broadcast. cbn [store manager fatigue_analyzer].
  destruct (broadcast_keeps_the_served (manager st) (classroom_id request)
              response (sockets w)) as (m' & sent & -> & Hperm & Hsent).
  exists response. eexists. exists sent. cbn [app].
  split; [reflexivity |]. cbn [store manager].
  split; [| split; [| split; [| split]]].
  - unfold get_status, MemoryStore.get_latest. cbn. by rewrite lookup_insert_eq.
  - intros Hcap. by apply add_history_then_newest.
  - intros cid Hne. unfold get_status, MemoryStore.get_latest. cbn.
    by rewrite lookup_insert_ne.
  - eapply Forall_impl; [exact Hsent |]. by intros d [Hd _].
  - exact Hperm.
Qed.

(** The history endpoint counts with the default limit: [count] is the
    number of buffered entries capped at 20, whatever [limit] was asked
    for, so a reply to a larger limit can carry more entries than it
    counts. *)
Theorem history_reply_count_capped (st : state WebSocket) (cid : string) (limit : Z) :
  let buffered := length (MemoryStore.history_deque (store st) cid) in
  reply_count (get_history st cid limit) = Nat.min 20 buffered
  ∧ ((20 < limit)%Z → (20 < buffered)%nat →
     (reply_count (get_history st cid limit)
      < length (reply_data (get_history st cid limit)))%nat).
Proof.
  intros buffered. unfold get_history, default_limit. cbn [reply_count reply_data].
  rewrite (get_history_positive _ _ 20) by lia. rewrite lastn_length.
  fold buffered. split; [lia |]. intros Hl Hb.
  rewrite get_history_positive by lia. rewrite lastn_length. fold buffered. lia.
Qed.
End CycleMore.

(** The valid batch of the scenario, sent to a fresh server. *)
Lemma analyze_classroom_returns_witness :
  ∃ response,
    Server.analyze_classroom FatigueAnalyzer.init Scenario.valid_batch 7%Z
    = (Server.Returned response,
       FatigueAnalyzer.feed FatigueAnalyzer.init
         (Server.readings (Server.students Scenario.valid_batch)),
       [("room_101"%string, response)]).
Proof.
  destruct (analyze_classroom_returns FatigueAnalyzer.init Scenario.valid_batch 7%Z)
    as (response & Hr & _).
  - apply Forall_cons. split; [left; cbn; lia | apply Forall_nil_2].
  - exists response. exact Hr.
Defined.

Lemma returned_cycle_is_committed_witness :
  let st : Server.state nat :=
    Server.State (MemoryStore.init 100) ∅ FatigueAnalyzer.init in
  let w : Server.world nat := Server.World 1%Z 2%Z 3%Z (λ _ _, true) in
  ∃ response st' sent,
    Server.post_analyze st w Scenario.valid_batch = (Server.Returned response, st', sent)
    ∧ Server.get_status st' "room_101" = Server.Returned response.
Proof.
  intros st w.
  destruct (returned_cycle_is_committed st w Scenario.valid_batch)
    as (response & st' & sent & Hp & Hs & _).
  - apply Forall_cons. split; [left; cbn; lia | apply Forall_nil_2].
  - exists response, st', sent. split; [exact Hp | exact Hs].
Defined.
